(** * FM-radio receiver session (fmradio/jni/android_fmradio_Receiver.cpp)

    A shallow embedding of the receiver's session state machine: the
    transition-validity table, the caller-facing operations, the two scan
    workers and the vendor forced-reset callback.

    Conventions of the embedding.
    - The session record keeps the fields of [fmReceiverSession] the state
      machine reads or writes; JNI handles ([jvm_p], [jobj_p], bundle
      offsets) and the mutex pointer are left out.
    - Every operation is a computation [M A]: it receives the session,
      returns a value, the updated session and the list of externally
      visible actions it performed, in program order (vendor calls,
      notifications to the Java layer, exceptions raised, thread creation).
    - Values returned by the vendor library and by [pthread_create] are
      inputs of the operation that makes the call.
    - A scan worker gives up the session mutex around the vendor scan call.
      What other threads do to the session in that window is an explicit
      argument ([interference]) of the worker.  The short windows in which a
      Java notification is delivered are re-entry points too; the final
      sections of the workers are given twice, as one critical section and
      with the window of their state-change notification made explicit.
    - The callbacks that carry a notification to the Java layer are embedded
      separately, as the sequence of mutex, attach and Java-call operations
      each of them performs. *)

From Stdlib Require Import String ZArith List Bool Lia.
Import ListNotations.
Local Open Scope Z_scope.

(** ** Enumerations *)

(** Column order of the table, as its header comment gives it:
    IDLE, STARTING, STARTED, PAUSED, SCANNING, E_C, RESETTING. *)
Inductive FmRadioState_t : Type :=
| FMRADIO_STATE_IDLE
| FMRADIO_STATE_STARTING
| FMRADIO_STATE_STARTED
| FMRADIO_STATE_PAUSED
| FMRADIO_STATE_SCANNING
| FMRADIO_STATE_E_C
| FMRADIO_STATE_RESETTING.

(** Row order of the table, as the row comments give it. *)
Inductive FmRadioEvent_t : Type :=
| FMRADIO_EVENT_START
| FMRADIO_EVENT_START_ASYNC
| FMRADIO_EVENT_PAUSE
| FMRADIO_EVENT_RESUME
| FMRADIO_EVENT_RESET
| FMRADIO_EVENT_FORCED_PAUSE
| FMRADIO_EVENT_GET_PARAMETER
| FMRADIO_EVENT_SET_PARAMETER
| FMRADIO_EVENT_STOP_SCAN
| FMRADIO_EVENT_EXTRA_COMMAND
| FMRADIO_EVENT_GET_SIGNAL_STRENGTH
| FMRADIO_EVENT_SCAN
| FMRADIO_EVENT_FULL_SCAN
| FMRADIO_EVENT_BLOCK_SCAN.

Inductive fmradio_seek_direction_t : Type :=
| FMRADIO_SEEK_DOWN
| FMRADIO_SEEK_UP.

Definition state_index (s : FmRadioState_t) : nat :=
  match s with
  | FMRADIO_STATE_IDLE => 0
  | FMRADIO_STATE_STARTING => 1
  | FMRADIO_STATE_STARTED => 2
  | FMRADIO_STATE_PAUSED => 3
  | FMRADIO_STATE_SCANNING => 4
  | FMRADIO_STATE_E_C => 5
  | FMRADIO_STATE_RESETTING => 6
  end%nat.

Definition event_index (e : FmRadioEvent_t) : nat :=
  match e with
  | FMRADIO_EVENT_START => 0
  | FMRADIO_EVENT_START_ASYNC => 1
  | FMRADIO_EVENT_PAUSE => 2
  | FMRADIO_EVENT_RESUME => 3
  | FMRADIO_EVENT_RESET => 4
  | FMRADIO_EVENT_FORCED_PAUSE => 5
  | FMRADIO_EVENT_GET_PARAMETER => 6
  | FMRADIO_EVENT_SET_PARAMETER => 7
  | FMRADIO_EVENT_STOP_SCAN => 8
  | FMRADIO_EVENT_EXTRA_COMMAND => 9
  | FMRADIO_EVENT_GET_SIGNAL_STRENGTH => 10
  | FMRADIO_EVENT_SCAN => 11
  | FMRADIO_EVENT_FULL_SCAN => 12
  | FMRADIO_EVENT_BLOCK_SCAN => 13
  end%nat.

Definition FmRadioState_eqb (a b : FmRadioState_t) : bool :=
  Nat.eqb (state_index a) (state_index b).

(** ** The transition table *)

Definition ValidEventsForStates_t : Type := list (list bool).

Definition IsValidRxEventForState : ValidEventsForStates_t :=
  [ (* FMRADIO_EVENT_START *)         [true ; false; false; false; false; false; false];
    (* FMRADIO_EVENT_START_ASYNC *)   [true ; false; false; false; false; false; false];
    (* FMRADIO_EVENT_PAUSE *)         [false; false; true ; true ; false; false; false];
    (* FMRADIO_EVENT_RESUME *)        [false; false; true ; true ; false; false; false];
    (* FMRADIO_EVENT_RESET *)         [true ; true ; true ; true ; true ; true ; false];
    (* FMRADIO_EVENT_FORCED_PAUSE *)  [true ; true ; true ; true ; true ; true ; false];
    (* FMRADIO_EVENT_GET_PARAMETER *) [false; false; true ; true ; false; false; false];
    (* FMRADIO_EVENT_SET_PARAMETER *) [false; false; true ; true ; false; false; false];
    (* FMRADIO_EVENT_STOP_SCAN *)     [true ; true ; true ; true ; true ; true ; false];
    (* FMRADIO_EVENT_EXTRA_COMMAND *) [true ; true ; true ; true ; true ; true ; false];
    (* FMRADIO_EVENT_GET_SIGNAL_STRENGTH *)
                                      [false; false; true ; false; false; false; false];
    (* FMRADIO_EVENT_SCAN *)          [false; false; true ; true ; false; false; false];
    (* FMRADIO_EVENT_FULL_SCAN *)     [false; false; true ; true ; false; false; false];
    (* FMRADIO_EVENT_BLOCK_SCAN *)    [false; false; false; false; false; false; false] ].

(** Cell [table[event][state]] of the two-dimensional array. *)
Definition table_cell (t : ValidEventsForStates_t)
    (e : FmRadioEvent_t) (s : FmRadioState_t) : bool :=
  nth (state_index s) (nth (event_index e) t []) false.

(** The table as the specification words it (section 4.1 and the summary
    table of section 4.2): sets of states per event, anything not listed
    being invalid. *)
Definition spec_is_valid (e : FmRadioEvent_t) (s : FmRadioState_t) : bool :=
  match e with
  | FMRADIO_EVENT_START | FMRADIO_EVENT_START_ASYNC =>
      match s with FMRADIO_STATE_IDLE => true | _ => false end
  | FMRADIO_EVENT_PAUSE | FMRADIO_EVENT_RESUME
  | FMRADIO_EVENT_SCAN | FMRADIO_EVENT_FULL_SCAN
  | FMRADIO_EVENT_GET_PARAMETER | FMRADIO_EVENT_SET_PARAMETER =>
      match s with
      | FMRADIO_STATE_STARTED | FMRADIO_STATE_PAUSED => true
      | _ => false
      end
  | FMRADIO_EVENT_GET_SIGNAL_STRENGTH =>
      match s with FMRADIO_STATE_STARTED => true | _ => false end
  | FMRADIO_EVENT_RESET | FMRADIO_EVENT_FORCED_PAUSE
  | FMRADIO_EVENT_STOP_SCAN | FMRADIO_EVENT_EXTRA_COMMAND =>
      match s with FMRADIO_STATE_RESETTING => false | _ => true end
  | FMRADIO_EVENT_BLOCK_SCAN => false
  end.

(** ** Session data *)

(** The vendor function pointers the receiver tests against NULL before
    use; [true] stands for a non-null pointer. *)
Record fmradio_vendor_methods_t : Type := {
  get_signal_strength : bool;
  scan : bool;
  full_scan : bool;
  set_automatic_af_switching : bool;
  set_automatic_ta_switching : bool;
  set_force_mono : bool;
  set_threshold : bool;
  get_threshold : bool
}.

Record FmSession_t : Type := {
  vendorMethods_p : fmradio_vendor_methods_t;
  isRegistered : bool;
  state : FmRadioState_t;
  oldState : FmRadioState_t;
  pendingPause : bool;
  lastScanAborted : bool
}.

Definition with_state (v : FmRadioState_t) (s : FmSession_t) : FmSession_t :=
  {| vendorMethods_p := vendorMethods_p s; isRegistered := isRegistered s;
     state := v; oldState := oldState s;
     pendingPause := pendingPause s; lastScanAborted := lastScanAborted s |}.

Definition with_oldState (v : FmRadioState_t) (s : FmSession_t) : FmSession_t :=
  {| vendorMethods_p := vendorMethods_p s; isRegistered := isRegistered s;
     state := state s; oldState := v;
     pendingPause := pendingPause s; lastScanAborted := lastScanAborted s |}.

Definition with_pendingPause (v : bool) (s : FmSession_t) : FmSession_t :=
  {| vendorMethods_p := vendorMethods_p s; isRegistered := isRegistered s;
     state := state s; oldState := oldState s;
     pendingPause := v; lastScanAborted := lastScanAborted s |}.

Definition with_lastScanAborted (v : bool) (s : FmSession_t) : FmSession_t :=
  {| vendorMethods_p := vendorMethods_p s; isRegistered := isRegistered s;
     state := state s; oldState := oldState s;
     pendingPause := pendingPause s; lastScanAborted := v |}.

(** ** Externally visible actions *)

Inductive vendor_call : Type :=
| v_resume
| v_pause
| v_scan (seekDirection : fmradio_seek_direction_t)
| v_full_scan
| v_get_signal_strength
| v_set_automatic_af_switching (automatic : bool)
| v_set_automatic_ta_switching (automatic : bool)
| v_set_force_mono (forceMono : bool)
| v_set_threshold (threshold : Z)
| v_get_threshold.

(** The members of [FmRadioRxCallbacks] the state machine calls. *)
Inductive notification : Type :=
| onStateChanged (newState oldState : FmRadioState_t)
| onError
| onScan (foundFreq signalStrength : Z) (aborted : bool)
| onFullScan (noItems : Z) (frequencies sigStrengths : list Z) (aborted : bool)
| onForcedReset (reason : Z).

Inductive fm_exception : Type :=
| InvalidState
| IoError.

Inductive worker : Type :=
| worker_scan (seekDirection : fmradio_seek_direction_t)
| worker_full_scan.

Inductive Action : Type :=
| Vendor (c : vendor_call)
| Notify (n : notification)
| Throw (e : fm_exception)
| PthreadCreate (w : worker) (created : bool).

Definition is_vendor_resume (a : Action) : bool :=
  match a with Vendor v_resume => true | _ => false end.

Definition is_vendor_pause (a : Action) : bool :=
  match a with Vendor v_pause => true | _ => false end.

Definition is_vendor_call (a : Action) : bool :=
  match a with Vendor _ => true | _ => false end.

Definition is_onForcedReset (a : Action) : bool :=
  match a with Notify (onForcedReset _) => true | _ => false end.

Definition is_state_change (a : Action) : bool :=
  match a with Notify (onStateChanged _ _) => true | _ => false end.

Definition is_scan_result (a : Action) : bool :=
  match a with
  | Notify (onScan _ _ _) | Notify (onFullScan _ _ _ _) => true
  | _ => false
  end.

Definition is_thread_creation (a : Action) : bool :=
  match a with PthreadCreate _ _ => true | _ => false end.

(** ** Computations over the session *)

Definition M (A : Type) : Type := FmSession_t -> A * FmSession_t * list Action.

Definition ret {A : Type} (a : A) : M A := fun s => (a, s, []).

Definition bind {A B : Type} (c : M A) (k : A -> M B) : M B :=
  fun s =>
    let '(a, s1, t1) := c s in
    let '(b, s2, t2) := k a s1 in
    (b, s2, t1 ++ t2).

Declare Scope session_scope.
Delimit Scope session_scope with session.
Notation "x <- c ;; k" := (bind c (fun x => k))
  (at level 61, c at next level, right associativity) : session_scope.
Notation "c ;; k" := (bind c (fun _ => k))
  (at level 61, right associativity) : session_scope.
Local Open Scope session_scope.

Definition gets {A : Type} (f : FmSession_t -> A) : M A := fun s => (f s, s, []).
Definition modify (f : FmSession_t -> FmSession_t) : M unit := fun s => (tt, f s, []).
Definition emit (a : Action) : M unit := fun s => (tt, s, [a]).

(** Call into the vendor library; [r] is what the library returns. *)
Definition vendor {A : Type} (c : vendor_call) (r : A) : M A :=
  emit (Vendor c) ;; ret r.

Definition result {A : Type} (r : A * FmSession_t * list Action) : A := fst (fst r).
Definition final {A : Type} (r : A * FmSession_t * list Action) : FmSession_t :=
  snd (fst r).
Definition trace {A : Type} (r : A * FmSession_t * list Action) : list Action := snd r.


(** ** Status codes

    [FMRADIO_INVALID_STATE], [FMRADIO_IO_ERROR] and
    [FMRADIO_UNSUPPORTED_OPERATION] are defined in a header that is not part
    of the sources at hand, so the receiver is parametrised by their values.
    The file's own convention is that a negative [retval] is a failure
    ([retval = -1] for a stale scan, [retval >= 0] for a result, and
    [if (retval < 0) LOGE("... failed")]). *)
Class fmradio_status_codes : Type := {
  FMRADIO_INVALID_STATE : Z;
  FMRADIO_IO_ERROR : Z;
  FMRADIO_UNSUPPORTED_OPERATION : Z
}.

(** One assignment that follows the convention, for concrete runs. *)
Definition negative_codes : fmradio_status_codes :=
  {| FMRADIO_INVALID_STATE := -2;
     FMRADIO_IO_ERROR := -1;
     FMRADIO_UNSUPPORTED_OPERATION := -3 |}.

Section Receiver.

Context {codes : fmradio_status_codes}.

(** *** Helpers of the common service layer *)

(** Modelled from the spec: [androidFmRadioIsValidEventForState] lives in
    the common service layer, outside the sources at hand.  Section 4.1: a
    pure lookup of (event, current state) in the session's table; the
    receiver session is initialised with [&IsValidRxEventForState]. *)
Definition androidFmRadioIsValidEventForState (e : FmRadioEvent_t) : M bool :=
  gets (fun s => table_cell IsValidRxEventForState e (state s)).

(** Modelled from the spec: the [FMRADIO_SET_STATE] macro comes from the
    missing header.  Sections 4.2 and 6: a transition stores the new state
    and reports it through [onStateChanged(new, old)]. *)
Definition FMRADIO_SET_STATE (newState : FmRadioState_t) : M unit :=
  old <- gets state ;;
  modify (with_state newState) ;;
  emit (Notify (onStateChanged newState old)).

(** Modelled from the spec: [androidFmRadioTempResumeIfPaused] and
    [androidFmRadioPauseIfTempResumed] are helpers of the common service
    layer.  Section 4.2, temporary-resume bracket: if the current state is
    Paused, vendor [resume()] is called before the operation and vendor
    [pause()] after it, the [state] field being left alone. *)
Definition androidFmRadioTempResumeIfPaused : M unit :=
  st <- gets state ;;
  if FmRadioState_eqb st FMRADIO_STATE_PAUSED
  then vendor v_resume tt
  else ret tt.

Definition androidFmRadioPauseIfTempResumed : M unit :=
  st <- gets state ;;
  if FmRadioState_eqb st FMRADIO_STATE_PAUSED
  then vendor v_pause tt
  else ret tt.

(** The [THROW_INVALID_STATE] and [THROW_IO_ERROR] macros raise the Java
    exception of that name. *)
Definition THROW_INVALID_STATE : M unit := emit (Throw InvalidState).
Definition THROW_IO_ERROR : M unit := emit (Throw IoError).

(** The block every caller-facing operation ends with:
    [if (retval == FMRADIO_INVALID_STATE) THROW_INVALID_STATE
     else if (retval < 0) THROW_IO_ERROR]. *)
Definition throw_for (retval : Z) : M unit :=
  if retval =? FMRADIO_INVALID_STATE then THROW_INVALID_STATE
  else if retval <? 0 then THROW_IO_ERROR
  else ret tt.

(** *** Vendor forced reset *)

Definition androidFmRadioRxCallbackOnVendorForcedReset (reason : Z) : M unit :=
  st <- gets state ;;
  (if negb (FmRadioState_eqb st FMRADIO_STATE_IDLE)
   then FMRADIO_SET_STATE FMRADIO_STATE_IDLE
   else ret tt) ;;
  emit (Notify (onForcedReset reason)).

(** *** Signal strength *)

Definition androidFmRadioRxGetSignalStrength (vendor_ret : Z) : M Z :=
  valid <- androidFmRadioIsValidEventForState FMRADIO_EVENT_GET_SIGNAL_STRENGTH ;;
  retval <-
    (if negb valid then ret FMRADIO_INVALID_STATE
     else
       m <- gets vendorMethods_p ;;
       if get_signal_strength m then
         androidFmRadioTempResumeIfPaused ;;
         r <- vendor v_get_signal_strength vendor_ret ;;
         androidFmRadioPauseIfTempResumed ;;
         ret r
       else ret FMRADIO_UNSUPPORTED_OPERATION) ;;
  (* drop_lock: *)
  throw_for retval ;;
  ret retval.

(** *** Single-frequency scan *)

(** Worker, first critical section: read [oldState], wake the chip if the
    scan was requested while paused. *)
Definition execute_androidFmRadioRxScan_entry : M FmRadioState_t :=
  old <- gets oldState ;;
  (if FmRadioState_eqb old FMRADIO_STATE_PAUSED
   then vendor v_resume tt
   else ret tt) ;;
  ret old.

(** Worker, second critical section, entered after the vendor scan returned
    [retval]; [oldState] is the worker's local copy and [vendor_strength]
    what [get_signal_strength] would return. *)
Definition execute_androidFmRadioRxScan_finish
    (oldState : FmRadioState_t) (retval vendor_strength : Z) : M unit :=
  st <- gets state ;;
  rs <-
    (if negb (FmRadioState_eqb st FMRADIO_STATE_SCANNING)
     then ret (-1, -1)
     else
       pp <- gets pendingPause ;;
       (if FmRadioState_eqb oldState FMRADIO_STATE_PAUSED || pp
        then vendor v_pause tt
        else ret tt) ;;
       pp' <- gets pendingPause ;;
       (if pp'
        then FMRADIO_SET_STATE FMRADIO_STATE_PAUSED
        else FMRADIO_SET_STATE oldState) ;;
       if 0 <=? retval then
         m <- gets vendorMethods_p ;;
         if get_signal_strength m then
           g <- vendor v_get_signal_strength vendor_strength ;;
           ret (retval, g)
         else ret (retval, -1)
       else ret (retval, -1)) ;;
  modify (with_pendingPause false) ;;
  if 0 <=? fst rs then
    aborted <- gets lastScanAborted ;;
    emit (Notify (onScan (fst rs) (snd rs) aborted))
  else emit (Notify onError).

Definition execute_androidFmRadioRxScan
    (seekDirection : fmradio_seek_direction_t)
    (vendor_ret vendor_strength : Z) (interference : M unit) : M unit :=
  old <- execute_androidFmRadioRxScan_entry ;;
  (* mutex released *)
  retval <- vendor (v_scan seekDirection) vendor_ret ;;
  interference ;;
  (* mutex taken again *)
  execute_androidFmRadioRxScan_finish old retval vendor_strength.

Definition androidFmRadioRxScan
    (seekDirection : fmradio_seek_direction_t) (pthread_create_ok : bool) : M unit :=
  valid <- androidFmRadioIsValidEventForState FMRADIO_EVENT_SCAN ;;
  retval <-
    (if negb valid then ret FMRADIO_INVALID_STATE
     else
       m <- gets vendorMethods_p ;;
       if scan m then
         st <- gets state ;;
         modify (with_oldState st) ;;
         FMRADIO_SET_STATE FMRADIO_STATE_SCANNING ;;
         modify (with_lastScanAborted false) ;;
         emit (PthreadCreate (worker_scan seekDirection) pthread_create_ok) ;;
         if negb pthread_create_ok then
           FMRADIO_SET_STATE FMRADIO_STATE_IDLE ;;
           ret FMRADIO_IO_ERROR
         else ret 0
       else ret FMRADIO_UNSUPPORTED_OPERATION) ;;
  (* drop_lock: *)
  throw_for retval.

(** *** Full-band scan *)

(** Worker, first critical section.  The local [oldState] is initialised
    from the session at its declaration, just before the mutex is taken;
    the wake-up of a paused chip is the same as in the other worker. *)
Definition execute_androidFmRadioRxFullScan_entry : M FmRadioState_t :=
  old <- gets oldState ;;
  (if FmRadioState_eqb old FMRADIO_STATE_PAUSED
   then vendor v_resume tt
   else ret tt) ;;
  ret old.

(** [retval] is the item count the vendor returned (negative on failure),
    [frequencies] and [rssi] the arrays it handed back. *)
Definition execute_androidFmRadioRxFullScan_finish
    (oldState : FmRadioState_t) (retval : Z) (frequencies rssi : list Z) : M unit :=
  st <- gets state ;;
  retval' <-
    (if negb (FmRadioState_eqb st FMRADIO_STATE_SCANNING)
     then ret (-1)
     else
       pp <- gets pendingPause ;;
       (if pp
        then FMRADIO_SET_STATE FMRADIO_STATE_PAUSED
        else FMRADIO_SET_STATE oldState) ;;
       modify (with_pendingPause false) ;;
       ret retval) ;;
  if 0 <=? retval' then
    aborted <- gets lastScanAborted ;;
    emit (Notify (onFullScan retval' frequencies rssi aborted))
  else emit (Notify onError).

Definition execute_androidFmRadioRxFullScan
    (vendor_ret : Z) (frequencies rssi : list Z) (interference : M unit) : M unit :=
  old <- execute_androidFmRadioRxFullScan_entry ;;
  (* mutex released *)
  retval <- vendor v_full_scan vendor_ret ;;
  interference ;;
  (* mutex taken again *)
  execute_androidFmRadioRxFullScan_finish old retval frequencies rssi.

Definition androidFmRadioRxStartFullScan (pthread_create_ok : bool) : M unit :=
  valid <- androidFmRadioIsValidEventForState FMRADIO_EVENT_FULL_SCAN ;;
  retval <-
    (if negb valid then ret FMRADIO_INVALID_STATE
     else
       m <- gets vendorMethods_p ;;
       if full_scan m then
         st <- gets state ;;
         modify (with_oldState st) ;;
         FMRADIO_SET_STATE FMRADIO_STATE_SCANNING ;;
         modify (with_lastScanAborted false) ;;
         emit (PthreadCreate worker_full_scan pthread_create_ok) ;;
         if negb pthread_create_ok then
           FMRADIO_SET_STATE FMRADIO_STATE_IDLE ;;
           ret FMRADIO_IO_ERROR
         else ret 0
       else ret FMRADIO_UNSUPPORTED_OPERATION) ;;
  (* drop_lock: *)
  throw_for retval.

(** *** Parameter operations *)

Definition androidFmRadioRxSetAutomaticAFSwitching
    (automatic : bool) (vendor_ret : Z) : M unit :=
  valid <- androidFmRadioIsValidEventForState FMRADIO_EVENT_SET_PARAMETER ;;
  retval <-
    (if negb valid then ret FMRADIO_INVALID_STATE
     else
       m <- gets vendorMethods_p ;;
       if set_automatic_af_switching m
       then vendor (v_set_automatic_af_switching automatic) vendor_ret
       else ret FMRADIO_UNSUPPORTED_OPERATION) ;;
  (* drop_lock: *)
  throw_for retval.

Definition androidFmRadioRxSetAutomaticTASwitching
    (automatic : bool) (vendor_ret : Z) : M unit :=
  valid <- androidFmRadioIsValidEventForState FMRADIO_EVENT_SET_PARAMETER ;;
  retval <-
    (if negb valid then ret FMRADIO_INVALID_STATE
     else
       m <- gets vendorMethods_p ;;
       if set_automatic_ta_switching m
       then vendor (v_set_automatic_ta_switching automatic) vendor_ret
       else ret FMRADIO_UNSUPPORTED_OPERATION) ;;
  (* drop_lock: *)
  throw_for retval.

Definition androidFmRadioRxSetForceMono
    (forceMono : bool) (vendor_ret : Z) : M unit :=
  valid <- androidFmRadioIsValidEventForState FMRADIO_EVENT_SET_PARAMETER ;;
  retval <-
    (if negb valid then ret FMRADIO_INVALID_STATE
     else
       m <- gets vendorMethods_p ;;
       if set_force_mono m then
         androidFmRadioTempResumeIfPaused ;;
         r <- vendor (v_set_force_mono forceMono) vendor_ret ;;
         androidFmRadioPauseIfTempResumed ;;
         ret r
       else ret FMRADIO_UNSUPPORTED_OPERATION) ;;
  (* drop_lock: *)
  throw_for retval.

(** In [androidFmRadioRxSetThreshold] the [drop_lock] label sits below the
    block that raises the exception, so the invalid-state exit skips it. *)
Definition androidFmRadioRxSetThreshold (threshold vendor_ret : Z) : M unit :=
  valid <- androidFmRadioIsValidEventForState FMRADIO_EVENT_SET_PARAMETER ;;
  if negb valid then ret tt (* retval = FMRADIO_INVALID_STATE; goto drop_lock *)
  else
    retval <-
      (m <- gets vendorMethods_p ;;
       if set_threshold m then
         androidFmRadioTempResumeIfPaused ;;
         r <- vendor (v_set_threshold threshold) vendor_ret ;;
         androidFmRadioPauseIfTempResumed ;;
         ret r
       else ret FMRADIO_UNSUPPORTED_OPERATION) ;;
    throw_for retval.

Definition androidFmRadioRxGetThreshold (vendor_ret : Z) : M Z :=
  valid <- androidFmRadioIsValidEventForState FMRADIO_EVENT_GET_PARAMETER ;;
  retval <-
    (if negb valid then ret FMRADIO_INVALID_STATE
     else
       m <- gets vendorMethods_p ;;
       if get_threshold m then
         androidFmRadioTempResumeIfPaused ;;
         r <- vendor v_get_threshold vendor_ret ;;
         androidFmRadioPauseIfTempResumed ;;
         ret r
       else ret FMRADIO_UNSUPPORTED_OPERATION) ;;
  (* drop_lock: *)
  throw_for retval ;;
  ret retval.

(** *** Requests served by the common service layer

    The receiver forwards these to functions that are not among the sources
    at hand.  They are used below only as the interference a scan worker
    may meet while the vendor scan runs. *)

(** Modelled from the spec: body of [androidFmRadioStopScan].  Section 4.2,
    summary table: StopScan is valid from any state except Resetting and
    sets [last_scan_aborted]. *)
Definition androidFmRadioStopScan : M unit :=
  valid <- androidFmRadioIsValidEventForState FMRADIO_EVENT_STOP_SCAN ;;
  if valid then modify (with_lastScanAborted true) else ret tt.

(** Modelled from the spec: body of [androidFmRadioReset].  Section 4.2:
    valid from every state except Resetting, where it fails with
    InvalidState; forces the state to Idle whatever the current state. *)
Definition androidFmRadioReset : M Z :=
  valid <- androidFmRadioIsValidEventForState FMRADIO_EVENT_RESET ;;
  if negb valid then
    THROW_INVALID_STATE ;;
    ret FMRADIO_INVALID_STATE
  else
    FMRADIO_SET_STATE FMRADIO_STATE_IDLE ;;
    ret 0.

(** Modelled from the spec: body of [androidFmRadioPause].  Section 4.2:
    while a scan is in flight the request only sets [pending_pause];
    otherwise it is valid from Started and Paused, calls vendor [pause()]
    and moves the state to Paused, and fails with InvalidState elsewhere. *)
Definition androidFmRadioPause : M unit :=
  st <- gets state ;;
  if FmRadioState_eqb st FMRADIO_STATE_SCANNING
  then modify (with_pendingPause true)
  else
    valid <- androidFmRadioIsValidEventForState FMRADIO_EVENT_PAUSE ;;
    if negb valid then THROW_INVALID_STATE
    else
      vendor v_pause tt ;;
      FMRADIO_SET_STATE FMRADIO_STATE_PAUSED.

End Receiver.

(** ** Sessions used in concrete runs *)

Definition all_methods : fmradio_vendor_methods_t :=
  {| get_signal_strength := true; scan := true; full_scan := true;
     set_automatic_af_switching := true; set_automatic_ta_switching := true;
     set_force_mono := true; set_threshold := true; get_threshold := true |}.

Definition no_methods : fmradio_vendor_methods_t :=
  {| get_signal_strength := false; scan := false; full_scan := false;
     set_automatic_af_switching := false; set_automatic_ta_switching := false;
     set_force_mono := false; set_threshold := false; get_threshold := false |}.

(** A registered session in state [st], with no scan history. *)
Definition session_in (m : fmradio_vendor_methods_t) (st : FmRadioState_t)
  : FmSession_t :=
  {| vendorMethods_p := m; isRegistered := true;
     state := st; oldState := FMRADIO_STATE_IDLE;
     pendingPause := false; lastScanAborted := false |}.

(** The session a worker finds when a scan was requested from [prev]. *)
Definition scanning_from (m : fmradio_vendor_methods_t) (prev : FmRadioState_t)
  : FmSession_t :=
  {| vendorMethods_p := m; isRegistered := true;
     state := FMRADIO_STATE_SCANNING; oldState := prev;
     pendingPause := false; lastScanAborted := false |}.

(** ** The capability-gated operations as one family

    Each of these operations tests one vendor function pointer against NULL
    after the validity check of its event. *)
Inductive gated_operation : Type :=
| op_getSignalStrength
| op_scan (seekDirection : fmradio_seek_direction_t)
| op_startFullScan
| op_setAutomaticAFSwitching (automatic : bool)
| op_setAutomaticTASwitching (automatic : bool)
| op_setForceMono (forceMono : bool)
| op_setThreshold (threshold : Z)
| op_getThreshold.

Definition gated_event (op : gated_operation) : FmRadioEvent_t :=
  match op with
  | op_getSignalStrength => FMRADIO_EVENT_GET_SIGNAL_STRENGTH
  | op_scan _ => FMRADIO_EVENT_SCAN
  | op_startFullScan => FMRADIO_EVENT_FULL_SCAN
  | op_setAutomaticAFSwitching _ | op_setAutomaticTASwitching _
  | op_setForceMono _ | op_setThreshold _ => FMRADIO_EVENT_SET_PARAMETER
  | op_getThreshold => FMRADIO_EVENT_GET_PARAMETER
  end.

Definition gated_pointer (op : gated_operation)
    (m : fmradio_vendor_methods_t) : bool :=
  match op with
  | op_getSignalStrength => get_signal_strength m
  | op_scan _ => scan m
  | op_startFullScan => full_scan m
  | op_setAutomaticAFSwitching _ => set_automatic_af_switching m
  | op_setAutomaticTASwitching _ => set_automatic_ta_switching m
  | op_setForceMono _ => set_force_mono m
  | op_setThreshold _ => set_threshold m
  | op_getThreshold => get_threshold m
  end.

(** Runs the operation; the value is [Some] of the [jint] the JNI entry
    point returns, [None] for a [void] entry point. *)
Definition run_gated {codes : fmradio_status_codes} (op : gated_operation)
    (vendor_ret : Z) (pthread_create_ok : bool) : M (option Z) :=
  match op with
  | op_getSignalStrength =>
      r <- androidFmRadioRxGetSignalStrength vendor_ret ;; ret (Some r)
  | op_scan d =>
      androidFmRadioRxScan d pthread_create_ok ;; ret None
  | op_startFullScan =>
      androidFmRadioRxStartFullScan pthread_create_ok ;; ret None
  | op_setAutomaticAFSwitching b =>
      androidFmRadioRxSetAutomaticAFSwitching b vendor_ret ;; ret None
  | op_setAutomaticTASwitching b =>
      androidFmRadioRxSetAutomaticTASwitching b vendor_ret ;; ret None
  | op_setForceMono b =>
      androidFmRadioRxSetForceMono b vendor_ret ;; ret None
  | op_setThreshold t =>
      androidFmRadioRxSetThreshold t vendor_ret ;; ret None
  | op_getThreshold =>
      r <- androidFmRadioRxGetThreshold vendor_ret ;; ret (Some r)
  end.

(** The status an operation with a null pointer hands back to Java. *)
Definition unsupported_status {codes : fmradio_status_codes}
    (op : gated_operation) : option Z :=
  match op with
  | op_getSignalStrength | op_getThreshold => Some FMRADIO_UNSUPPORTED_OPERATION
  | _ => None
  end.

(** [n] stop-scan requests served one after the other. *)
Fixpoint stop_scan_requests (n : nat) : M unit :=
  match n with
  | O => ret tt
  | S k => androidFmRadioStopScan ;; stop_scan_requests k
  end.

(** How a worker leaves the session of a stale scan: [state] and
    [oldState] as found, and a single [onError]. *)
Definition stale_exit (found : FmSession_t)
    (r : unit * FmSession_t * list Action) : Prop :=
  state (final r) = state found /\
  oldState (final r) = oldState found /\
  trace r = [Notify onError].

(** ** The final section of a worker, with its re-entry window

    [androidFmRadioRxCallbackOnStateChanged], which [FMRADIO_SET_STATE]
    reaches, releases the session mutex around its Java call and takes it
    again.  Other threads can be served in that window, between the state
    change of a worker and what the worker does next.  The definitions
    below are the final sections of the two workers with that window made
    explicit: [during_notification] is what the other threads do to the
    session while the state change is being notified.  With nothing
    happening there they are the sections defined above. *)

Definition FMRADIO_SET_STATE_released (newState : FmRadioState_t)
    (during_notification : M unit) : M unit :=
  old <- gets state ;;
  modify (with_state newState) ;;
  emit (Notify (onStateChanged newState old)) ;;
  during_notification.

Definition execute_androidFmRadioRxScan_finish_released
    (oldState : FmRadioState_t) (retval vendor_strength : Z)
    (during_notification : M unit) : M unit :=
  st <- gets state ;;
  rs <-
    (if negb (FmRadioState_eqb st FMRADIO_STATE_SCANNING)
     then ret (-1, -1)
     else
       pp <- gets pendingPause ;;
       (if FmRadioState_eqb oldState FMRADIO_STATE_PAUSED || pp
        then vendor v_pause tt
        else ret tt) ;;
       pp' <- gets pendingPause ;;
       (if pp'
        then FMRADIO_SET_STATE_released FMRADIO_STATE_PAUSED during_notification
        else FMRADIO_SET_STATE_released oldState during_notification) ;;
       if 0 <=? retval then
         m <- gets vendorMethods_p ;;
         if get_signal_strength m then
           g <- vendor v_get_signal_strength vendor_strength ;;
           ret (retval, g)
         else ret (retval, -1)
       else ret (retval, -1)) ;;
  modify (with_pendingPause false) ;;
  if 0 <=? fst rs then
    aborted <- gets lastScanAborted ;;
    emit (Notify (onScan (fst rs) (snd rs) aborted))
  else emit (Notify onError).

Definition execute_androidFmRadioRxFullScan_finish_released
    (oldState : FmRadioState_t) (retval : Z) (frequencies rssi : list Z)
    (during_notification : M unit) : M unit :=
  st <- gets state ;;
  retval' <-
    (if negb (FmRadioState_eqb st FMRADIO_STATE_SCANNING)
     then ret (-1)
     else
       pp <- gets pendingPause ;;
       (if pp
        then FMRADIO_SET_STATE_released FMRADIO_STATE_PAUSED during_notification
        else FMRADIO_SET_STATE_released oldState during_notification) ;;
       modify (with_pendingPause false) ;;
       ret retval) ;;
  if 0 <=? retval' then
    aborted <- gets lastScanAborted ;;
    emit (Notify (onFullScan retval' frequencies rssi aborted))
  else emit (Notify onError).

(** ** Queries *)

Definition androidFmRadioRxIsSignalStrengthSupported : M bool :=
  reg <- gets isRegistered ;;
  (* if we haven't register we don't know yet *)
  if negb reg then ret false
  else
    m <- gets vendorMethods_p ;;
    (* valid in all states *)
    if get_signal_strength m then ret true else ret false.

(** Predicates on actions used by the properties of the operations. *)
Definition is_throw (a : Action) : bool :=
  match a with Throw _ => true | _ => false end.

Definition is_notification (a : Action) : bool :=
  match a with Notify _ => true | _ => false end.

(** The vendor function a capability-gated operation calls itself, if
    any: a scan request leaves the vendor call to its worker. *)
Definition gated_vendor_call (op : gated_operation) : list vendor_call :=
  match op with
  | op_getSignalStrength => [v_get_signal_strength]
  | op_scan _ | op_startFullScan => []
  | op_setAutomaticAFSwitching b => [v_set_automatic_af_switching b]
  | op_setAutomaticTASwitching b => [v_set_automatic_ta_switching b]
  | op_setForceMono b => [v_set_force_mono b]
  | op_setThreshold t => [v_set_threshold t]
  | op_getThreshold => [v_get_threshold]
  end.

(** The operations whose vendor call sits between
    [androidFmRadioTempResumeIfPaused] and
    [androidFmRadioPauseIfTempResumed]. *)
Definition is_bracketed (op : gated_operation) : bool :=
  match op with
  | op_getSignalStrength | op_setForceMono _
  | op_setThreshold _ | op_getThreshold => true
  | _ => false
  end.

(** The six capability-gated operations that do not start a worker. *)
Definition is_parameter_operation (op : gated_operation) : bool :=
  match op with
  | op_scan _ | op_startFullScan => false
  | _ => true
  end.

(** ** Delivery of notifications to the Java layer

    The callbacks of the receiver look up a [notify...] method of the
    Java service object and call it.  What the JVM answers ([GetEnv],
    [AttachCurrentThread], [GetMethodID]) is an input; what the callback
    does to the session mutex, to the thread's attachment and to the Java
    object is its output, in program order.  [CallVoidMethod] is a call of
    a method of the service object ([*fmReceiverSession.jobj_p]);
    [CallBundleMethod] is the construction of a [Bundle] or a call of one
    of its put methods on a bundle the callback has just built. *)

#[warnings="-register-all"] Inductive jvalue : Type :=
| JInt (z : Z)
| JBoolean (b : bool)
| JString (s : string)
| JIntArray (l : list Z)
| JShortArray (l : list Z)
| JBundle (entries : list (string * jvalue)).

Inductive jni_action : Type :=
| pthread_mutex_lock
| pthread_mutex_unlock
| AttachCurrentThread
| DetachCurrentThread
| CallVoidMethod (name signature : string) (args : list jvalue)
| CallBundleMethod (name : string) (args : list jvalue).

Record jvm_answers : Type := {
  env_ok : bool;        (* GetEnv(...) == JNI_OK *)
  attach_ok : bool;     (* AttachCurrentThread(...) == JNI_OK *)
  method_found : bool   (* GetMethodID(...) != NULL *)
}.

(** The block
    [if (notifyMethod != NULL) { unlock; env->CallVoidMethod(...); lock; }]. *)
Definition call_java (found : bool) (name signature : string)
    (args : list jvalue) : list jni_action :=
  if found
  then [pthread_mutex_unlock; CallVoidMethod name signature args;
        pthread_mutex_lock]
  else [].

(** *** Callbacks from within the service layer (mutex held on entry) *)

Definition androidFmRadioRxCallbackOnStateChanged (jvm : jvm_answers)
    (newState oldState : Z) : list jni_action :=
  if negb (env_ok jvm) then
    (* reAttached = true *)
    AttachCurrentThread ::
    (if negb (attach_ok jvm) then []
     else
       call_java (method_found jvm) "notifyOnStateChanged" "(II)V"
         [JInt newState; JInt oldState]
       ++ [DetachCurrentThread])
  else
    call_java (method_found jvm) "notifyOnStateChanged" "(II)V"
      [JInt newState; JInt oldState].

Definition androidFmRadioRxCallbackOnError (jvm : jvm_answers)
  : list jni_action :=
  AttachCurrentThread ::
  (if negb (attach_ok jvm) then []
   else call_java (method_found jvm) "notifyOnError" "()V" []
        ++ [DetachCurrentThread]).

Definition androidFmRadioRxCallbackOnStarted (jvm : jvm_answers)
  : list jni_action :=
  AttachCurrentThread ::
  (if negb (attach_ok jvm) then []
   else call_java (method_found jvm) "notifyOnStarted" "()V" []
        ++ [DetachCurrentThread]).

Definition androidFmRadioRxCallbackOnScan (jvm : jvm_answers)
    (foundFreq signalStrength : Z) (aborted : bool) : list jni_action :=
  AttachCurrentThread ::
  (if negb (attach_ok jvm) then []
   else call_java (method_found jvm) "notifyOnScan" "(IIZ)V"
          [JInt foundFreq; JInt signalStrength; JBoolean aborted]
        ++ [DetachCurrentThread]).

(** [NewIntArray(noItems)] followed by
    [SetIntArrayRegion(array, 0, noItems, buffer)]: a Java array holding
    the first [noItems] integers of the C buffer.  The only call site
    passes [noItems >= 0]. *)
Definition java_int_array (noItems : Z) (buffer : list Z) : jvalue :=
  JIntArray (firstn (Z.to_nat noItems) buffer).

Definition androidFmRadioRxCallbackOnFullScan (jvm : jvm_answers)
    (noItems : Z) (frequencies sigStrengths : list Z) (aborted : bool)
  : list jni_action :=
  AttachCurrentThread ::
  (if negb (attach_ok jvm) then []
   else call_java (method_found jvm) "notifyOnFullScan" "([I[IZ)V"
          [java_int_array noItems frequencies;
           java_int_array noItems sigStrengths;
           JBoolean aborted]
        ++ [DetachCurrentThread]).

Definition androidFmRadioRxCallbackOnForcedReset (jvm : jvm_answers)
    (reason : Z) : list jni_action :=
  if negb (env_ok jvm) then
    (* reAttached = true *)
    AttachCurrentThread ::
    (if negb (attach_ok jvm) then []
     else
       call_java (method_found jvm) "notifyOnForcedReset" "(I)V" [JInt reason]
       ++ [DetachCurrentThread])
  else
    call_java (method_found jvm) "notifyOnForcedReset" "(I)V" [JInt reason].

(** [retBundle] is what [extraCommandRetList2Bundle], a function of the
    common service layer, makes of the vendor's result list. *)
Definition androidFmRadioRxCallbackOnExtraCommand (jvm : jvm_answers)
    (command : string) (retBundle : jvalue) : list jni_action :=
  AttachCurrentThread ::
  (if negb (attach_ok jvm) then []
   else call_java (method_found jvm) "notifyOnExtraCommand"
          "(Ljava/lang/String;Landroid/os/Bundle;)V"
          [JString command; retBundle]
        ++ [DetachCurrentThread]).

(** *** Callbacks from the vendor layer (mutex not held on entry) *)

(** The members of [struct fmradio_rds_bundle_t] the callback reads; [af]
    and [tmc] are the arrays embedded in the structure. *)
Record fmradio_rds_bundle_t : Type := {
  pi : Z; tp : Z; pty : Z; ta : Z; ms : Z;
  num_afs : Z;
  af : list Z;
  psn : string; rt : string; ct : string; ptyn : string;
  tmc : list Z;
  taf : Z
}.

(** The bundle handed to [notifyOnRDSDataFound], as the sequence of its
    puts.  [RDS_MAX_AFS] comes from a header that is not among the sources
    at hand. *)
Definition rds_bundle (RDS_MAX_AFS : Z) (t : fmradio_rds_bundle_t)
  : list (string * jvalue) :=
  [ ("PI"%string, JInt (pi t));
    ("TP"%string, JInt (tp t));
    ("PTY"%string, JInt (pty t));
    ("TA"%string, JInt (ta t));
    ("M/S"%string, JInt (ms t)) ]
  ++ (if (0 <? num_afs t) && (num_afs t <? RDS_MAX_AFS)
      then [("AF"%string, java_int_array (num_afs t) (af t))]
      else [])
  ++ [ ("PSN"%string, JString (psn t));
       ("RT"%string, JString (rt t));
       ("CT"%string, JString (ct t));
       ("PTYN"%string, JString (ptyn t));
       ("TMC"%string, JShortArray (firstn 3 (tmc t)));
       ("TAF"%string, JInt (taf t)) ].

(** The construction of that bundle: [NewObject] and one put per entry,
    in program order.  The callback makes these calls before it releases
    the mutex ("these calls are to predefined methods, no need to release
    lock"). *)
Definition rds_bundle_calls (RDS_MAX_AFS : Z) (t : fmradio_rds_bundle_t)
  : list jni_action :=
  [ CallBundleMethod "<init>" [];
    CallBundleMethod "putShort" [JString "PI"; JInt (pi t)];
    CallBundleMethod "putShort" [JString "TP"; JInt (tp t)];
    CallBundleMethod "putShort" [JString "PTY"; JInt (pty t)];
    CallBundleMethod "putShort" [JString "TA"; JInt (ta t)];
    CallBundleMethod "putShort" [JString "M/S"; JInt (ms t)] ]
  ++ (if (0 <? num_afs t) && (num_afs t <? RDS_MAX_AFS)
      then [CallBundleMethod "putIntArray"
              [JString "AF"; java_int_array (num_afs t) (af t)]]
      else [])
  ++ [ CallBundleMethod "putString" [JString "PSN"; JString (psn t)];
       CallBundleMethod "putString" [JString "RT"; JString (rt t)];
       CallBundleMethod "putString" [JString "CT"; JString (ct t)];
       CallBundleMethod "putString" [JString "PTYN"; JString (ptyn t)];
       CallBundleMethod "putShortArray"
         [JString "TMC"; JShortArray (firstn 3 (tmc t))];
       CallBundleMethod "putInt" [JString "TAF"; JInt (taf t)] ].





(** *** The callback table of the receiver session

    [FmRadioRxCallbacks] binds each notification of the state machine to
    its callback; a state travels as its enumeration value. *)
Definition state_value (s : FmRadioState_t) : Z := Z.of_nat (state_index s).

Definition FmRadioRxCallbacks (jvm : notification -> jvm_answers)
    (n : notification) : list jni_action :=
  match n with
  | onStateChanged newState oldState =>
      androidFmRadioRxCallbackOnStateChanged (jvm n)
        (state_value newState) (state_value oldState)
  | onError => androidFmRadioRxCallbackOnError (jvm n)
  | onScan foundFreq signalStrength aborted =>
      androidFmRadioRxCallbackOnScan (jvm n) foundFreq signalStrength aborted
  | onFullScan noItems frequencies sigStrengths aborted =>
      androidFmRadioRxCallbackOnFullScan (jvm n) noItems frequencies
        sigStrengths aborted
  | onForcedReset reason => androidFmRadioRxCallbackOnForcedReset (jvm n) reason
  end.

(** What a critical section of the state machine does at the JNI level:
    its notifications, each through its callback. *)
Definition jni_trace (jvm : notification -> jvm_answers) (t : list Action)
  : list jni_action :=
  flat_map (fun a => match a with
                     | Notify n => FmRadioRxCallbacks jvm n
                     | _ => []
                     end) t.

(** Replays the mutex operations of a thread that starts with the mutex
    [held] or not.  [None]: the thread locks a mutex it holds, unlocks one
    it does not hold, or calls a method of the service object while holding
    it, which the file's comments rule out because that method may call
    back into the receiver.  Calls on a bundle are not constrained here;
    [bundle_calls_held] below tells where they are made. *)
Fixpoint mutex_replay (held : bool) (t : list jni_action) : option bool :=
  match t with
  | [] => Some held
  | pthread_mutex_lock :: t' =>
      if held then None else mutex_replay true t'
  | pthread_mutex_unlock :: t' =>
      if held then mutex_replay false t' else None
  | CallVoidMethod _ _ _ :: t' =>
      if held then None else mutex_replay held t'
  | _ :: t' => mutex_replay held t'
  end.



(** The entry a put call adds to its bundle. *)
Definition put_entry (a : jni_action) : list (string * jvalue) :=
  match a with
  | CallBundleMethod _ [JString key; value] => [(key, value)]
  | _ => []
  end.

Definition is_java_call (a : jni_action) : bool :=
  match a with CallVoidMethod _ _ _ => true | _ => false end.

Definition is_call_of (method : string) (a : jni_action) : bool :=
  match a with
  | CallVoidMethod name _ _ => String.eqb name method
  | _ => false
  end.

Definition is_detach (a : jni_action) : bool :=
  match a with DetachCurrentThread => true | _ => false end.

Definition bundle_keys (b : list (string * jvalue)) : list string := map fst b.

(** Value put under [key], if any. *)
Fixpoint bundle_get (key : string) (b : list (string * jvalue)) : option jvalue :=
  match b with
  | [] => None
  | (k, v) :: b' => if String.eqb key k then Some v else bundle_get key b'
  end.

(** The vendor forced-reset callback at the JNI level: it takes the mutex,
    runs its critical section and releases the mutex. *)
Definition vendor_forced_reset_jni (jvm : notification -> jvm_answers)
    (reason : Z) (s : FmSession_t) : list jni_action :=
  pthread_mutex_lock ::
  jni_trace jvm (trace (androidFmRadioRxCallbackOnVendorForcedReset reason s))
  ++ [pthread_mutex_unlock].

(** * Properties *)

Lemma FmRadioState_eqb_spec (a b : FmRadioState_t) :
  reflect (a = b) (FmRadioState_eqb a b).
Proof.
  destruct a, b; cbn; constructor; congruence.
Qed.

Lemma FmRadioState_eqb_neq (a b : FmRadioState_t) :
  a <> b -> FmRadioState_eqb a b = false.
Proof.
  intros Hab; destruct (FmRadioState_eqb_spec a b); congruence.
Qed.

(** Unfolds the session monad and the service-layer helpers. *)
Ltac unfold_session :=
  unfold androidFmRadioIsValidEventForState, FMRADIO_SET_STATE,
    androidFmRadioTempResumeIfPaused, androidFmRadioPauseIfTempResumed,
    THROW_INVALID_STATE, THROW_IO_ERROR, vendor, emit, modify, gets,
    bind, ret, result, final, trace in *.

(** ** C1: the transition table *)

(** C1. For every (event, state) pair the receiver's validity table holds
    exactly the value the specification's table prescribes: Start and
    StartAsync only from Idle; Pause, Resume, Scan, FullScan, GetParameter
    and SetParameter only from Started or Paused; GetSignalStrength only
    from Started; Reset, ForcedPause, StopScan and ExtraCommand from every
    state but Resetting; BlockScan from none; everything else invalid. *)
Theorem C1_table_matches_spec :
  forall (e : FmRadioEvent_t) (s : FmRadioState_t),
    table_cell IsValidRxEventForState e s = spec_is_valid e s.
Proof.
  intros e s; destruct e; destruct s; reflexivity.
Qed.

(** The lookup every operation starts with reads that table at the
    session's current state. *)
Lemma lookup_matches_spec (e : FmRadioEvent_t) (s : FmSession_t) :
  androidFmRadioIsValidEventForState e s = (spec_is_valid e (state s), s, []).
Proof.
  unfold androidFmRadioIsValidEventForState, gets.
  destruct e; destruct (state s); reflexivity.
Qed.

(** The table is rectangular: 14 rows of 7 cells, so no lookup ever falls
    back on the default of [nth]. *)
Lemma table_is_rectangular :
  length IsValidRxEventForState = 14%nat /\
  Forall (fun row => length row = 7%nat) IsValidRxEventForState.
Proof.
  split; [reflexivity | repeat constructor].
Qed.

(** ** C2: a stale scan result is discarded *)

Lemma scan_finish_stale (old : FmRadioState_t) (retval strength : Z)
    (s : FmSession_t) :
  state s <> FMRADIO_STATE_SCANNING ->
  execute_androidFmRadioRxScan_finish old retval strength s
  = (tt, with_pendingPause false s, [Notify onError]).
Proof.
  intros Hst.
  unfold execute_androidFmRadioRxScan_finish; unfold_session.
  rewrite (FmRadioState_eqb_neq _ _ Hst); reflexivity.
Qed.

Lemma full_scan_finish_stale (old : FmRadioState_t) (retval : Z)
    (fs rs : list Z) (s : FmSession_t) :
  state s <> FMRADIO_STATE_SCANNING ->
  execute_androidFmRadioRxFullScan_finish old retval fs rs s
  = (tt, s, [Notify onError]).
Proof.
  intros Hst.
  unfold execute_androidFmRadioRxFullScan_finish; unfold_session.
  rewrite (FmRadioState_eqb_neq _ _ Hst); reflexivity.
Qed.

(** C2. In both workers: if the session is no longer Scanning when the
    worker takes the mutex again after the vendor scan call, the worker
    leaves [state] and [oldState] as it found them, drops the scan result
    and emits a single onError (no onScan/onFullScan, no state-change
    notification, no vendor call).  In particular a session that a reset
    put in Idle during the vendor call is still Idle when the worker is
    done. *)
Theorem C2_stale_scan_result_discarded :
  forall (old : FmRadioState_t) (retval strength : Z) (fs rs : list Z)
         (s : FmSession_t),
    state s <> FMRADIO_STATE_SCANNING ->
    stale_exit s (execute_androidFmRadioRxScan_finish old retval strength s) /\
    stale_exit s (execute_androidFmRadioRxFullScan_finish old retval fs rs s).
Proof.
  intros old retval strength fs rs s Hst.
  rewrite (scan_finish_stale old retval strength s Hst).
  rewrite (full_scan_finish_stale old retval fs rs s Hst).
  unfold stale_exit, final, trace; cbn.
  repeat split; auto.
Qed.

Lemma C2_stale_scan_result_discarded_witness :
  state (session_in all_methods FMRADIO_STATE_IDLE) <> FMRADIO_STATE_SCANNING /\
  stale_exit (session_in all_methods FMRADIO_STATE_IDLE)
    (execute_androidFmRadioRxScan_finish FMRADIO_STATE_STARTED 98300 7
       (session_in all_methods FMRADIO_STATE_IDLE)) /\
  stale_exit (session_in all_methods FMRADIO_STATE_IDLE)
    (execute_androidFmRadioRxFullScan_finish FMRADIO_STATE_STARTED 98300
       [98300] [7] (session_in all_methods FMRADIO_STATE_IDLE)).
Proof.
  split; [cbn; discriminate |].
  apply (C2_stale_scan_result_discarded FMRADIO_STATE_STARTED 98300 7
           [98300] [7] (session_in all_methods FMRADIO_STATE_IDLE)).
  cbn; discriminate.
Defined.

(** The whole worker run, with a reset landing while the vendor scan is in
    progress: the session ends Idle and the caller gets onError. *)
Lemma reset_during_scan_leaves_idle {codes : fmradio_status_codes}
    (d : fmradio_seek_direction_t) (retval strength : Z)
    (m : fmradio_vendor_methods_t) (prev : FmRadioState_t) :
  let r := execute_androidFmRadioRxScan d retval strength
             (androidFmRadioReset ;; ret tt) (scanning_from m prev) in
  state (final r) = FMRADIO_STATE_IDLE /\
  existsb is_scan_result (trace r) = false /\
  last (trace r) (Notify onError) = Notify onError.
Proof.
  destruct prev; cbn; repeat split; reflexivity.
Qed.

Lemma reset_during_full_scan_leaves_idle {codes : fmradio_status_codes}
    (retval : Z) (fs rs : list Z)
    (m : fmradio_vendor_methods_t) (prev : FmRadioState_t) :
  let r := execute_androidFmRadioRxFullScan retval fs rs
             (androidFmRadioReset ;; ret tt) (scanning_from m prev) in
  state (final r) = FMRADIO_STATE_IDLE /\
  existsb is_scan_result (trace r) = false /\
  last (trace r) (Notify onError) = Notify onError.
Proof.
  destruct prev; cbn; repeat split; reflexivity.
Qed.

(** ** C3 and C4: finalization in the two workers *)

(** What the single-frequency worker does when it finds the session still
    Scanning. *)
Lemma scan_finish_scanning (old : FmRadioState_t) (retval strength : Z)
    (s : FmSession_t) :
  state s = FMRADIO_STATE_SCANNING ->
  let restored := if pendingPause s then FMRADIO_STATE_PAUSED else old in
  final (execute_androidFmRadioRxScan_finish old retval strength s)
    = with_pendingPause false (with_state restored s) /\
  trace (execute_androidFmRadioRxScan_finish old retval strength s)
    = (if FmRadioState_eqb old FMRADIO_STATE_PAUSED || pendingPause s
       then [Vendor v_pause] else [])
      ++ [Notify (onStateChanged restored FMRADIO_STATE_SCANNING)]
      ++ (if 0 <=? retval
          then (if get_signal_strength (vendorMethods_p s)
                then [Vendor v_get_signal_strength;
                      Notify (onScan retval strength (lastScanAborted s))]
                else [Notify (onScan retval (-1) (lastScanAborted s))])
          else [Notify onError]).
Proof.
  destruct s as [m reg st olds pp ab]; cbn; intros ->.
  unfold execute_androidFmRadioRxScan_finish; unfold_session; cbn.
  destruct (FmRadioState_eqb old FMRADIO_STATE_PAUSED), pp; cbn;
    destruct (0 <=? retval) eqn:Hr; cbn;
    destruct (get_signal_strength m); cbn; rewrite ?Hr; auto.
Qed.

(** What the full-band worker does when it finds the session still
    Scanning. *)
Lemma full_scan_finish_scanning (old : FmRadioState_t) (retval : Z)
    (fs rs : list Z) (s : FmSession_t) :
  state s = FMRADIO_STATE_SCANNING ->
  let restored := if pendingPause s then FMRADIO_STATE_PAUSED else old in
  final (execute_androidFmRadioRxFullScan_finish old retval fs rs s)
    = with_pendingPause false (with_state restored s) /\
  trace (execute_androidFmRadioRxFullScan_finish old retval fs rs s)
    = [Notify (onStateChanged restored FMRADIO_STATE_SCANNING);
       if 0 <=? retval
       then Notify (onFullScan retval fs rs (lastScanAborted s))
       else Notify onError].
Proof.
  destruct s as [m reg st olds pp ab]; cbn; intros ->.
  unfold execute_androidFmRadioRxFullScan_finish; unfold_session; cbn.
  destruct pp; cbn; destruct (0 <=? retval); cbn; auto.
Qed.

(** The two workers agree on every session field they leave behind when
    the scan is not stale. *)
Lemma workers_restore_same_session (old : FmRadioState_t)
    (retval strength n : Z) (fs rs : list Z) (s : FmSession_t) :
  state s = FMRADIO_STATE_SCANNING ->
  final (execute_androidFmRadioRxScan_finish old retval strength s)
  = final (execute_androidFmRadioRxFullScan_finish old n fs rs s).
Proof.
  intros Hst.
  destruct (scan_finish_scanning old retval strength s Hst) as [-> _].
  destruct (full_scan_finish_scanning old n fs rs s Hst) as [-> _].
  reflexivity.
Qed.

(** A pause deferred to the end of the scan is applied by both workers. *)
Lemma pending_pause_applied (old : FmRadioState_t)
    (retval strength n : Z) (fs rs : list Z) (s : FmSession_t) :
  state s = FMRADIO_STATE_SCANNING ->
  pendingPause s = true ->
  let r1 := final (execute_androidFmRadioRxScan_finish old retval strength s) in
  let r2 := final (execute_androidFmRadioRxFullScan_finish old n fs rs s) in
  (state r1 = FMRADIO_STATE_PAUSED /\ pendingPause r1 = false) /\
  (state r2 = FMRADIO_STATE_PAUSED /\ pendingPause r2 = false).
Proof.
  intros Hst Hpp; cbn zeta.
  destruct (scan_finish_scanning old retval strength s Hst) as [-> _].
  destruct (full_scan_finish_scanning old n fs rs s Hst) as [-> _].
  rewrite Hpp; cbn; auto.
Qed.

(** The single-frequency worker puts the chip back to sleep ... *)
Lemma scan_finish_pauses_vendor (old : FmRadioState_t) (retval strength : Z)
    (s : FmSession_t) :
  state s = FMRADIO_STATE_SCANNING ->
  old = FMRADIO_STATE_PAUSED \/ pendingPause s = true ->
  existsb is_vendor_pause
    (trace (execute_androidFmRadioRxScan_finish old retval strength s)) = true.
Proof.
  intros Hst Hor.
  destruct (scan_finish_scanning old retval strength s Hst) as [_ ->].
  assert (Hc : FmRadioState_eqb old FMRADIO_STATE_PAUSED || pendingPause s = true).
  { destruct Hor as [-> | ->]; [reflexivity | apply orb_true_r]. }
  rewrite Hc; reflexivity.
Qed.

(** ... the full-band worker makes no vendor call at all once the scan
    has returned. *)
Lemma full_scan_finish_calls_no_vendor (old : FmRadioState_t) (retval : Z)
    (fs rs : list Z) (s : FmSession_t) :
  existsb is_vendor_call
    (trace (execute_androidFmRadioRxFullScan_finish old retval fs rs s)) = false.
Proof.
  destruct (FmRadioState_eqb_spec (state s) FMRADIO_STATE_SCANNING) as [Hst | Hst].
  - destruct (full_scan_finish_scanning old retval fs rs s Hst) as [_ ->].
    cbn; destruct (0 <=? retval); reflexivity.
  - rewrite (full_scan_finish_stale old retval fs rs s Hst); reflexivity.
Qed.

(** C3. The finalization of the two workers is not the same.  For a scan
    requested while Paused and still Scanning at re-lock, the
    single-frequency worker calls vendor pause() before restoring
    [state = Paused]; the full-band worker restores [state = Paused]
    without calling vendor pause(), although it did call vendor resume()
    on entry: its whole run contains a resume and no pause. *)
Theorem C3_full_scan_worker_omits_vendor_pause :
  existsb is_vendor_pause
    (trace (execute_androidFmRadioRxScan_finish FMRADIO_STATE_PAUSED 98300 7
              (scanning_from all_methods FMRADIO_STATE_PAUSED))) = true /\
  existsb is_vendor_pause
    (trace (execute_androidFmRadioRxFullScan_finish FMRADIO_STATE_PAUSED 2
              [98300; 101100] [7; 9]
              (scanning_from all_methods FMRADIO_STATE_PAUSED))) = false /\
  state (final (execute_androidFmRadioRxFullScan_finish FMRADIO_STATE_PAUSED 2
                  [98300; 101100] [7; 9]
                  (scanning_from all_methods FMRADIO_STATE_PAUSED)))
    = FMRADIO_STATE_PAUSED /\
  trace (execute_androidFmRadioRxFullScan 2 [98300; 101100] [7; 9] (ret tt)
           (scanning_from all_methods FMRADIO_STATE_PAUSED))
    = [Vendor v_resume; Vendor v_full_scan;
       Notify (onStateChanged FMRADIO_STATE_PAUSED FMRADIO_STATE_SCANNING);
       Notify (onFullScan 2 [98300; 101100] [7; 9] false)].
Proof.
  repeat split; reflexivity.
Qed.

(** C4. [pendingPause] is not cleared on every exit path.  A full-band
    worker that finds the session no longer Scanning (here: Idle) leaves a
    set [pendingPause] set, where the single-frequency worker clears it.
    The second half runs the whole full-band worker with a pause deferred
    and a reset served while the vendor scan is in progress. *)
Theorem C4_full_scan_worker_keeps_pending_pause_when_stale :
  pendingPause
    (final (execute_androidFmRadioRxFullScan_finish FMRADIO_STATE_STARTED 2
              [98300; 101100] [7; 9]
              (with_pendingPause true (session_in all_methods FMRADIO_STATE_IDLE))))
    = true /\
  pendingPause
    (final (execute_androidFmRadioRxScan_finish FMRADIO_STATE_STARTED 98300 7
              (with_pendingPause true (session_in all_methods FMRADIO_STATE_IDLE))))
    = false /\
  pendingPause
    (final (execute_androidFmRadioRxFullScan 2 [98300; 101100] [7; 9]
              (androidFmRadioPause ;;
               androidFmRadioReset (codes := negative_codes) ;; ret tt)
              (scanning_from all_methods FMRADIO_STATE_STARTED)))
    = true.
Proof.
  repeat split; reflexivity.
Qed.

(** ** C6: vendor forced reset *)

(** C6. Whatever the session state (Started in particular), the vendor
    forced-reset handler leaves the session Idle and calls onForcedReset
    exactly once, with the reason it was given. *)
Theorem C6_forced_reset_goes_idle_and_notifies_once :
  forall (reason : Z) (s : FmSession_t),
    state (final (androidFmRadioRxCallbackOnVendorForcedReset reason s))
      = FMRADIO_STATE_IDLE /\
    filter is_onForcedReset
      (trace (androidFmRadioRxCallbackOnVendorForcedReset reason s))
      = [Notify (onForcedReset reason)].
Proof.
  intros reason [m reg st olds pp ab].
  unfold androidFmRadioRxCallbackOnVendorForcedReset; unfold_session; cbn.
  destruct st; cbn; split; reflexivity.
Qed.

(** The handler touches nothing but [state], and reports the transition
    only when there is one. *)
Lemma forced_reset_run (reason : Z) (s : FmSession_t) :
  androidFmRadioRxCallbackOnVendorForcedReset reason s
  = (tt, with_state FMRADIO_STATE_IDLE s,
     (if FmRadioState_eqb (state s) FMRADIO_STATE_IDLE then []
      else [Notify (onStateChanged FMRADIO_STATE_IDLE (state s))])
     ++ [Notify (onForcedReset reason)]).
Proof.
  destruct s as [m reg st olds pp ab].
  unfold androidFmRadioRxCallbackOnVendorForcedReset; unfold_session; cbn.
  destruct st; reflexivity.
Qed.

(** ** C9: the aborted flag of a scan result *)

(** C9, as stated, fails: the flag a worker reports is not the value
    [lastScanAborted] had when the worker started.  A stop-scan request
    served while the vendor scan runs turns the flag from [false] to
    [true], and the worker reports [true]. *)
Lemma C9_aborted_flag_not_captured_on_entry :
  ~ (forall (codes : fmradio_status_codes) (d : fmradio_seek_direction_t)
            (retval strength : Z) (interference : M unit) (s0 : FmSession_t)
            (freq sig : Z) (aborted : bool),
       In (Notify (onScan freq sig aborted))
          (trace (execute_androidFmRadioRxScan d retval strength
                    interference s0)) ->
       aborted = lastScanAborted s0).
Proof.
  intros H.
  specialize (H negative_codes FMRADIO_SEEK_UP 98300 7 androidFmRadioStopScan
                (scanning_from all_methods FMRADIO_STATE_STARTED)
                98300 7 true).
  cbn in H.
  assert (Hab : true = false) by (apply H; do 3 right; left; reflexivity).
  discriminate Hab.
Qed.

(** With no thread served while the state change is notified, the flag
    reported is the one found at re-lock. *)
Lemma scan_result_carries_current_flag (old : FmRadioState_t)
    (retval strength : Z) (s : FmSession_t) :
  state s = FMRADIO_STATE_SCANNING ->
  0 <= retval ->
  filter is_scan_result
    (trace (execute_androidFmRadioRxScan_finish old retval strength s))
  = [Notify (onScan retval
               (if get_signal_strength (vendorMethods_p s)
                then strength else -1)
               (lastScanAborted s))] /\
  forall fs rs : list Z,
    filter is_scan_result
      (trace (execute_androidFmRadioRxFullScan_finish old retval fs rs s))
    = [Notify (onFullScan retval fs rs (lastScanAborted s))].
Proof.
  intros Hst Hret.
  destruct (scan_finish_scanning old retval strength s Hst) as [_ ->].
  apply Z.leb_le in Hret; rewrite Hret.
  split.
  - destruct (FmRadioState_eqb old FMRADIO_STATE_PAUSED || pendingPause s);
      destruct (get_signal_strength (vendorMethods_p s)); cbn; auto.
  - intros fs rs.
    destruct (full_scan_finish_scanning old retval fs rs s Hst) as [_ ->].
    rewrite Hret; reflexivity.
Qed.

(** The final sections with their window, on a session found Scanning:
    the state is restored, the other threads run on the session so
    changed, and the worker goes on from what they leave. *)
Lemma scan_finish_released_scanning (old : FmRadioState_t)
    (retval strength : Z) (during_notification : M unit)
    (s s2 : FmSession_t) (t2 : list Action) :
  state s = FMRADIO_STATE_SCANNING ->
  during_notification
    (with_state (if pendingPause s then FMRADIO_STATE_PAUSED else old) s)
  = (tt, s2, t2) ->
  0 <= retval ->
  final (execute_androidFmRadioRxScan_finish_released old retval strength
           during_notification s)
  = with_pendingPause false s2 /\
  trace (execute_androidFmRadioRxScan_finish_released old retval strength
           during_notification s)
  = ((if FmRadioState_eqb old FMRADIO_STATE_PAUSED || pendingPause s
      then [Vendor v_pause] else [])
     ++ Notify (onStateChanged
                  (if pendingPause s then FMRADIO_STATE_PAUSED else old)
                  FMRADIO_STATE_SCANNING)
        :: t2
     ++ (if get_signal_strength (vendorMethods_p s2)
         then [Vendor v_get_signal_strength] else []))
    ++ [Notify (onScan retval
                  (if get_signal_strength (vendorMethods_p s2)
                   then strength else -1)
                  (lastScanAborted s2))].
Proof.
  destruct s as [m reg st olds pp ab]; cbn; intros -> HW Hret.
  apply Z.leb_le in Hret.
  unfold execute_androidFmRadioRxScan_finish_released,
    FMRADIO_SET_STATE_released; unfold_session; cbn.
  destruct (FmRadioState_eqb old FMRADIO_STATE_PAUSED), pp; cbn in *;
    rewrite HW; cbn; rewrite Hret;
    destruct (get_signal_strength (vendorMethods_p s2)); cbn;
    rewrite ?Hret; cbn; rewrite <- ?app_assoc; cbn;
    destruct s2; split; reflexivity.
Qed.

Lemma full_scan_finish_released_scanning (old : FmRadioState_t)
    (retval : Z) (fs rs : list Z) (during_notification : M unit)
    (s s2 : FmSession_t) (t2 : list Action) :
  state s = FMRADIO_STATE_SCANNING ->
  during_notification
    (with_state (if pendingPause s then FMRADIO_STATE_PAUSED else old) s)
  = (tt, s2, t2) ->
  0 <= retval ->
  final (execute_androidFmRadioRxFullScan_finish_released old retval fs rs
           during_notification s)
  = with_pendingPause false s2 /\
  trace (execute_androidFmRadioRxFullScan_finish_released old retval fs rs
           during_notification s)
  = (Notify (onStateChanged
               (if pendingPause s then FMRADIO_STATE_PAUSED else old)
               FMRADIO_STATE_SCANNING)
     :: t2)
    ++ [Notify (onFullScan retval fs rs (lastScanAborted s2))].
Proof.
  destruct s as [m reg st olds pp ab]; cbn; intros -> HW Hret.
  apply Z.leb_le in Hret.
  unfold execute_androidFmRadioRxFullScan_finish_released,
    FMRADIO_SET_STATE_released; unfold_session; cbn.
  destruct pp; cbn in *; rewrite HW; cbn; rewrite Hret; cbn;
    rewrite <- ?app_assoc; cbn; destruct s2; split; reflexivity.
Qed.

(** With no thread served during the notification, the final sections
    with a window are the final sections defined first. *)
Lemma finish_released_without_reentry (old : FmRadioState_t)
    (retval strength : Z) (fs rs : list Z) (s : FmSession_t) :
  execute_androidFmRadioRxScan_finish_released old retval strength (ret tt) s
  = execute_androidFmRadioRxScan_finish old retval strength s /\
  execute_androidFmRadioRxFullScan_finish_released old retval fs rs (ret tt) s
  = execute_androidFmRadioRxFullScan_finish old retval fs rs s.
Proof.
  destruct s as [m reg st olds pp ab].
  unfold execute_androidFmRadioRxScan_finish_released,
    execute_androidFmRadioRxScan_finish,
    execute_androidFmRadioRxFullScan_finish_released,
    execute_androidFmRadioRxFullScan_finish,
    FMRADIO_SET_STATE_released; unfold_session; cbn.
  destruct (FmRadioState_eqb st FMRADIO_STATE_SCANNING); cbn;
    [| split; reflexivity].
  destruct (FmRadioState_eqb old FMRADIO_STATE_PAUSED), pp; cbn;
    destruct (0 <=? retval) eqn:Hr; cbn;
    destruct (get_signal_strength m); cbn; rewrite ?Hr; cbn;
    split; reflexivity.
Qed.

(** C9, amended.  When the session is still Scanning at re-lock and the
    vendor scan succeeded, the last action of each worker is its scan
    result, and the aborted flag of that result is the value
    [lastScanAborted] has when the result is emitted: the value left by
    whatever was served while the mutex was released for the state-change
    notification, which is the last moment another thread can write the
    flag before the worker reads it.  It need not be the value the worker
    found at re-lock. *)
Theorem C9_aborted_flag_is_the_value_at_emission :
  forall (old : FmRadioState_t) (retval strength : Z) (fs rs : list Z)
         (during_notification : M unit) (s s2 : FmSession_t)
         (t2 : list Action),
    state s = FMRADIO_STATE_SCANNING ->
    0 <= retval ->
    during_notification
      (with_state (if pendingPause s then FMRADIO_STATE_PAUSED else old) s)
    = (tt, s2, t2) ->
    last (trace (execute_androidFmRadioRxScan_finish_released old retval
                   strength during_notification s))
         (Notify onError)
    = Notify (onScan retval
                (if get_signal_strength (vendorMethods_p s2)
                 then strength else -1)
                (lastScanAborted s2)) /\
    last (trace (execute_androidFmRadioRxFullScan_finish_released old retval
                   fs rs during_notification s))
         (Notify onError)
    = Notify (onFullScan retval fs rs (lastScanAborted s2)).
Proof.
  intros old retval strength fs rs W s s2 t2 Hst Hret HW.
  destruct (scan_finish_released_scanning old retval strength W s s2 t2
              Hst HW Hret) as [_ ->].
  destruct (full_scan_finish_released_scanning old retval fs rs W s s2 t2
              Hst HW Hret) as [_ ->].
  rewrite !last_last; split; reflexivity.
Qed.

(** A worker run is its entry section, the vendor call, whatever the other
    threads did meanwhile, and its final section on the session so left. *)
Lemma scan_worker_run (d : fmradio_seek_direction_t) (retval strength : Z)
    (interference : M unit) (s0 s1 : FmSession_t) (t1 : list Action) :
  interference s0 = (tt, s1, t1) ->
  execute_androidFmRadioRxScan d retval strength interference s0
  = (tt,
     final (execute_androidFmRadioRxScan_finish (oldState s0) retval strength s1),
     (if FmRadioState_eqb (oldState s0) FMRADIO_STATE_PAUSED
      then [Vendor v_resume] else [])
     ++ [Vendor (v_scan d)] ++ t1
     ++ trace (execute_androidFmRadioRxScan_finish (oldState s0) retval strength s1)).
Proof.
  intros Hi.
  unfold execute_androidFmRadioRxScan, execute_androidFmRadioRxScan_entry.
  generalize execute_androidFmRadioRxScan_finish; intros fin.
  unfold vendor, emit, gets, bind, ret, final, trace.
  destruct (FmRadioState_eqb (oldState s0) FMRADIO_STATE_PAUSED); cbn;
    rewrite Hi;
    destruct (fin (oldState s0) retval strength s1) as [[[] s2] t2];
    reflexivity.
Qed.

(** Stop-scan requests served while a scan is in flight only raise the
    flag, however many they are. *)
Lemma stop_scan_requests_run (n : nat) (s : FmSession_t) :
  state s = FMRADIO_STATE_SCANNING ->
  stop_scan_requests n s
  = (tt, with_lastScanAborted (lastScanAborted s || negb (Nat.eqb n 0)) s, []).
Proof.
  revert s; induction n as [| k IH]; intros [m reg st olds pp ab]; cbn;
    intros ->.
  - rewrite orb_false_r; reflexivity.
  - unfold bind, androidFmRadioStopScan, androidFmRadioIsValidEventForState,
      gets, modify; cbn.
    rewrite IH by reflexivity; cbn.
    rewrite !orb_true_r; reflexivity.
Qed.

(** Whole run of the single-frequency worker against [n] stop-scan
    requests: one or more of them make the reported flag [true], although
    the flag was [false] when the worker started. *)
Lemma scan_worker_reports_stop_scan (d : fmradio_seek_direction_t)
    (retval strength : Z) (n : nat) (m : fmradio_vendor_methods_t)
    (prev : FmRadioState_t) :
  0 <= retval ->
  filter is_scan_result
    (trace (execute_androidFmRadioRxScan d retval strength
              (stop_scan_requests n) (scanning_from m prev)))
  = [Notify (onScan retval
               (if get_signal_strength m then strength else -1)
               (negb (Nat.eqb n 0)))].
Proof.
  intros Hret.
  rewrite (scan_worker_run d retval strength _ _ _ _
             (stop_scan_requests_run n (scanning_from m prev) eq_refl)).
  unfold trace at 1; cbn [snd oldState lastScanAborted scanning_from].
  rewrite !filter_app.
  destruct (scan_result_carries_current_flag prev retval strength
              (with_lastScanAborted (false || negb (Nat.eqb n 0))
                 (scanning_from m prev)) eq_refl Hret) as [Hflag _].
  rewrite Hflag.
  destruct (FmRadioState_eqb prev FMRADIO_STATE_PAUSED); reflexivity.
Qed.

(** ** C5, C7, C8, C10: the caller-facing operations *)

Section CallerOperations.

Context {codes : fmradio_status_codes}.

Lemma throw_for_invalid_state (s : FmSession_t) :
  throw_for FMRADIO_INVALID_STATE s = (tt, s, [Throw InvalidState]).
Proof.
  unfold throw_for; rewrite Z.eqb_refl; reflexivity.
Qed.

Lemma throw_for_negative (retval : Z) (s : FmSession_t) :
  retval < 0 -> retval <> FMRADIO_INVALID_STATE ->
  throw_for retval s = (tt, s, [Throw IoError]).
Proof.
  intros Hneg Hne; unfold throw_for.
  apply Z.eqb_neq in Hne; apply Z.ltb_lt in Hneg.
  rewrite Hne, Hneg; reflexivity.
Qed.

(** Evaluates an operation on a session whose fields are known. *)
Ltac run_operation :=
  unfold_session; cbn;
  rewrite ?throw_for_invalid_state, ?throw_for_negative by assumption;
  cbn; try reflexivity.

(** C5. A scan request served while the session is Scanning is rejected
    with InvalidState: the only action is the exception (no thread is
    created, whatever [pthread_create] would have answered) and the
    session is returned unchanged in every field. *)
Theorem C5_scan_while_scanning_rejected :
  forall (d : fmradio_seek_direction_t) (pthread_create_ok : bool)
         (s : FmSession_t),
    state s = FMRADIO_STATE_SCANNING ->
    androidFmRadioRxScan d pthread_create_ok s = (tt, s, [Throw InvalidState]).
Proof.
  intros d ok [m reg st olds pp ab]; cbn; intros ->.
  unfold androidFmRadioRxScan; run_operation.
Qed.

(** The same holds for a full-scan request. *)
Lemma full_scan_while_scanning_rejected (pthread_create_ok : bool)
    (s : FmSession_t) :
  state s = FMRADIO_STATE_SCANNING ->
  androidFmRadioRxStartFullScan pthread_create_ok s
  = (tt, s, [Throw InvalidState]).
Proof.
  destruct s as [m reg st olds pp ab]; cbn; intros ->.
  unfold androidFmRadioRxStartFullScan; run_operation.
Qed.

(** C7, amended.  A getSignalStrength call served while the session is
    Paused is rejected with InvalidState: it returns
    FMRADIO_INVALID_STATE, makes no vendor call at all (no resume(), no
    measurement, no pause()) and returns the session unchanged in every
    field, so [state] is Paused before and after the call. *)
Theorem C7_signal_strength_while_paused_rejected :
  forall (vendor_ret : Z) (s : FmSession_t),
    state s = FMRADIO_STATE_PAUSED ->
    androidFmRadioRxGetSignalStrength vendor_ret s
    = (FMRADIO_INVALID_STATE, s, [Throw InvalidState]).
Proof.
  intros v [m reg st olds pp ab]; cbn; intros ->.
  unfold androidFmRadioRxGetSignalStrength; run_operation.
Qed.

(** From Started, the one state the table accepts, the measurement is
    made with no resume/pause around it. *)
Lemma signal_strength_while_started (vendor_ret : Z) (s : FmSession_t) :
  state s = FMRADIO_STATE_STARTED ->
  get_signal_strength (vendorMethods_p s) = true ->
  0 <= vendor_ret ->
  vendor_ret <> FMRADIO_INVALID_STATE ->
  androidFmRadioRxGetSignalStrength vendor_ret s
  = (vendor_ret, s, [Vendor v_get_signal_strength]).
Proof.
  destruct s as [m reg st olds pp ab]; cbn; intros -> Hm Hv Hne.
  unfold androidFmRadioRxGetSignalStrength, throw_for; unfold_session; cbn.
  apply Z.eqb_neq in Hne.
  assert (Hl : (vendor_ret <? 0) = false) by (apply Z.ltb_ge; exact Hv).
  rewrite Hm; cbn; rewrite Hne, Hl; reflexivity.
Qed.

(** The temporary-resume bracket does serve the threshold query of a
    Paused session: resume, query, pause, and no field changes. *)
Lemma threshold_while_paused_is_bracketed (vendor_ret : Z) (s : FmSession_t) :
  state s = FMRADIO_STATE_PAUSED ->
  get_threshold (vendorMethods_p s) = true ->
  0 <= vendor_ret ->
  vendor_ret <> FMRADIO_INVALID_STATE ->
  androidFmRadioRxGetThreshold vendor_ret s
  = (vendor_ret, s, [Vendor v_resume; Vendor v_get_threshold; Vendor v_pause]).
Proof.
  destruct s as [m reg st olds pp ab]; cbn; intros -> Hm Hv Hne.
  unfold androidFmRadioRxGetThreshold, throw_for; unfold_session; cbn.
  apply Z.eqb_neq in Hne.
  assert (Hl : (vendor_ret <? 0) = false) by (apply Z.ltb_ge; exact Hv).
  rewrite Hm; cbn; rewrite Hne, Hl; reflexivity.
Qed.

(** The closing block raises at most one exception and leaves the session
    alone. *)
Lemma throw_for_run (retval : Z) (s : FmSession_t) :
  throw_for retval s = (tt, s, trace (throw_for retval s)) /\
  (trace (throw_for retval s) = [Throw InvalidState] \/
   trace (throw_for retval s) = [Throw IoError] \/
   trace (throw_for retval s) = []).
Proof.
  unfold throw_for, THROW_INVALID_STATE, THROW_IO_ERROR, emit, ret, trace.
  destruct (retval =? FMRADIO_INVALID_STATE); [cbn; auto |].
  destruct (retval <? 0); cbn; auto.
Qed.

(** Whatever the values of the status codes: a null pointer makes the
    operation skip the vendor, leave the session alone and hand
    FMRADIO_UNSUPPORTED_OPERATION to the closing block, which knows of two
    exceptions only. *)
Lemma null_pointer_run (op : gated_operation) (vendor_ret : Z)
    (pthread_create_ok : bool) (s : FmSession_t) :
  table_cell IsValidRxEventForState (gated_event op) (state s) = true ->
  gated_pointer op (vendorMethods_p s) = false ->
  run_gated op vendor_ret pthread_create_ok s
  = (unsupported_status op, s,
     trace (throw_for FMRADIO_UNSUPPORTED_OPERATION s)).
Proof.
  destruct s as [m reg st olds pp ab]; intros Hvalid Hnull.
  cbn in Hvalid, Hnull.
  destruct op; cbn in Hvalid, Hnull;
    destruct st; try discriminate Hvalid;
    unfold run_gated, androidFmRadioRxGetSignalStrength, androidFmRadioRxScan,
      androidFmRadioRxStartFullScan, androidFmRadioRxSetAutomaticAFSwitching,
      androidFmRadioRxSetAutomaticTASwitching, androidFmRadioRxSetForceMono,
      androidFmRadioRxSetThreshold, androidFmRadioRxGetThreshold;
    unfold_session; cbn; rewrite Hnull; cbn;
    match goal with
    | |- context [throw_for ?r ?s] =>
        rewrite (proj1 (throw_for_run r s))
    end; cbn; rewrite ?app_nil_r; reflexivity.
Qed.

(** C8, amended.  For each capability-gated operation served in a state
    where its event is valid: if the vendor function pointer is null, no
    vendor call is made and no thread is created, the session is returned
    unchanged in every field ([state] included), the status is
    FMRADIO_UNSUPPORTED_OPERATION (handed back by the two entry points that
    return a value), and the exception raised is IoError as soon as that
    code is negative and differs from FMRADIO_INVALID_STATE. *)
Theorem C8_null_pointer_is_reported_as_IoError :
  forall (op : gated_operation) (vendor_ret : Z) (pthread_create_ok : bool)
         (s : FmSession_t),
    table_cell IsValidRxEventForState (gated_event op) (state s) = true ->
    gated_pointer op (vendorMethods_p s) = false ->
    FMRADIO_UNSUPPORTED_OPERATION < 0 ->
    FMRADIO_UNSUPPORTED_OPERATION <> FMRADIO_INVALID_STATE ->
    run_gated op vendor_ret pthread_create_ok s
    = (unsupported_status op, s, [Throw IoError]).
Proof.
  intros op v ok s Hvalid Hnull Hneg Hne.
  rewrite (null_pointer_run op v ok s Hvalid Hnull).
  rewrite (throw_for_negative _ s Hneg Hne); reflexivity.
Qed.

(** An invalid state is reported before the pointer is looked at. *)
Lemma null_pointer_in_invalid_state (d : fmradio_seek_direction_t)
    (pthread_create_ok : bool) (s : FmSession_t) :
  table_cell IsValidRxEventForState FMRADIO_EVENT_SCAN (state s) = false ->
  androidFmRadioRxScan d pthread_create_ok s = (tt, s, [Throw InvalidState]).
Proof.
  destruct s as [m reg st olds pp ab]; cbn; intros Hinv.
  unfold androidFmRadioRxScan; unfold_session; cbn.
  rewrite Hinv; cbn; rewrite throw_for_invalid_state; reflexivity.
Qed.

(** C10. If the worker thread cannot be created for a scan or full-scan
    request made from Started or Paused, the request raises IoError and
    leaves the session Idle, not in the state it was in before the request
    (which is kept in [oldState] only). *)
Theorem C10_thread_creation_failure_goes_idle :
  forall (d : fmradio_seek_direction_t) (s : FmSession_t),
    state s = FMRADIO_STATE_STARTED \/ state s = FMRADIO_STATE_PAUSED ->
    scan (vendorMethods_p s) = true ->
    full_scan (vendorMethods_p s) = true ->
    FMRADIO_IO_ERROR < 0 ->
    FMRADIO_IO_ERROR <> FMRADIO_INVALID_STATE ->
    androidFmRadioRxScan d false s
    = (tt,
       with_lastScanAborted false
         (with_state FMRADIO_STATE_IDLE (with_oldState (state s) s)),
       [Notify (onStateChanged FMRADIO_STATE_SCANNING (state s));
        PthreadCreate (worker_scan d) false;
        Notify (onStateChanged FMRADIO_STATE_IDLE FMRADIO_STATE_SCANNING);
        Throw IoError]) /\
    androidFmRadioRxStartFullScan false s
    = (tt,
       with_lastScanAborted false
         (with_state FMRADIO_STATE_IDLE (with_oldState (state s) s)),
       [Notify (onStateChanged FMRADIO_STATE_SCANNING (state s));
        PthreadCreate worker_full_scan false;
        Notify (onStateChanged FMRADIO_STATE_IDLE FMRADIO_STATE_SCANNING);
        Throw IoError]) /\
    state (final (androidFmRadioRxScan d false s)) = FMRADIO_STATE_IDLE /\
    state (final (androidFmRadioRxStartFullScan false s)) = FMRADIO_STATE_IDLE /\
    state (final (androidFmRadioRxScan d false s)) <> state s /\
    state (final (androidFmRadioRxStartFullScan false s)) <> state s.
Proof.
  intros d [m reg st olds pp ab] Hst Hscan Hfull Hneg Hne.
  cbn in Hst, Hscan, Hfull.
  assert (Hs : androidFmRadioRxScan d false
                 {| vendorMethods_p := m; isRegistered := reg; state := st;
                    oldState := olds; pendingPause := pp;
                    lastScanAborted := ab |}
               = (tt,
                  {| vendorMethods_p := m; isRegistered := reg;
                     state := FMRADIO_STATE_IDLE; oldState := st;
                     pendingPause := pp; lastScanAborted := false |},
                  [Notify (onStateChanged FMRADIO_STATE_SCANNING st);
                   PthreadCreate (worker_scan d) false;
                   Notify (onStateChanged FMRADIO_STATE_IDLE FMRADIO_STATE_SCANNING);
                   Throw IoError])).
  { unfold androidFmRadioRxScan; unfold_session.
    destruct Hst as [-> | ->]; cbn; rewrite Hscan; cbn;
      rewrite throw_for_negative by assumption; reflexivity. }
  assert (Hf : androidFmRadioRxStartFullScan false
                 {| vendorMethods_p := m; isRegistered := reg; state := st;
                    oldState := olds; pendingPause := pp;
                    lastScanAborted := ab |}
               = (tt,
                  {| vendorMethods_p := m; isRegistered := reg;
                     state := FMRADIO_STATE_IDLE; oldState := st;
                     pendingPause := pp; lastScanAborted := false |},
                  [Notify (onStateChanged FMRADIO_STATE_SCANNING st);
                   PthreadCreate worker_full_scan false;
                   Notify (onStateChanged FMRADIO_STATE_IDLE FMRADIO_STATE_SCANNING);
                   Throw IoError])).
  { unfold androidFmRadioRxStartFullScan; unfold_session.
    destruct Hst as [-> | ->]; cbn; rewrite Hfull; cbn;
      rewrite throw_for_negative by assumption; reflexivity. }
  rewrite Hs, Hf; unfold final; cbn.
  repeat split; try reflexivity;
    destruct Hst as [-> | ->]; discriminate.
Qed.

End CallerOperations.

(** ** Concrete runs *)

Lemma C5_scan_while_scanning_rejected_witness :
  state (scanning_from all_methods FMRADIO_STATE_STARTED)
    = FMRADIO_STATE_SCANNING /\
  androidFmRadioRxScan (codes := negative_codes) FMRADIO_SEEK_UP true
    (scanning_from all_methods FMRADIO_STATE_STARTED)
  = (tt, scanning_from all_methods FMRADIO_STATE_STARTED, [Throw InvalidState]).
Proof.
  split; [reflexivity |].
  apply (@C5_scan_while_scanning_rejected negative_codes FMRADIO_SEEK_UP true
           (scanning_from all_methods FMRADIO_STATE_STARTED)).
  reflexivity.
Defined.

(** C7, as stated, fails: a getSignalStrength call on a Paused session
    whose vendor offers the measurement calls neither vendor resume() nor
    vendor pause(). *)
Lemma C7_no_bracket_for_signal_strength_while_paused :
  ~ (forall (codes : fmradio_status_codes) (vendor_ret : Z) (s : FmSession_t),
       state s = FMRADIO_STATE_PAUSED ->
       get_signal_strength (vendorMethods_p s) = true ->
       In (Vendor v_resume)
          (trace (androidFmRadioRxGetSignalStrength vendor_ret s)) /\
       In (Vendor v_pause)
          (trace (androidFmRadioRxGetSignalStrength vendor_ret s))).
Proof.
  intros H.
  destruct (H negative_codes 42 (session_in all_methods FMRADIO_STATE_PAUSED)
              eq_refl eq_refl) as [Hin _].
  cbn in Hin.
  destruct Hin as [Hin | []]; discriminate Hin.
Qed.

Lemma C7_signal_strength_while_paused_rejected_witness :
  state (session_in all_methods FMRADIO_STATE_PAUSED) = FMRADIO_STATE_PAUSED /\
  androidFmRadioRxGetSignalStrength (codes := negative_codes) 42
    (session_in all_methods FMRADIO_STATE_PAUSED)
  = (-2, session_in all_methods FMRADIO_STATE_PAUSED, [Throw InvalidState]).
Proof.
  split; [reflexivity |].
  apply (@C7_signal_strength_while_paused_rejected negative_codes 42
           (session_in all_methods FMRADIO_STATE_PAUSED)).
  reflexivity.
Defined.

(** C8, as stated, fails: with status codes that follow the file's
    convention, a scan request on a Started session whose vendor has no
    scan function raises IoError. *)
Lemma C8_null_pointer_raises_IoError :
  ~ (forall (codes : fmradio_status_codes) (op : gated_operation)
            (vendor_ret : Z) (pthread_create_ok : bool) (s : FmSession_t),
       gated_pointer op (vendorMethods_p s) = false ->
       ~ In (Throw IoError)
            (trace (run_gated op vendor_ret pthread_create_ok s))).
Proof.
  intros H.
  apply (H negative_codes (op_scan FMRADIO_SEEK_UP) 0 true
           (session_in no_methods FMRADIO_STATE_STARTED) eq_refl).
  cbn; left; reflexivity.
Qed.

Lemma C8_null_pointer_is_reported_as_IoError_witness :
  table_cell IsValidRxEventForState (gated_event op_getSignalStrength)
    (state (session_in no_methods FMRADIO_STATE_STARTED)) = true /\
  gated_pointer op_getSignalStrength
    (vendorMethods_p (session_in no_methods FMRADIO_STATE_STARTED)) = false /\
  -3 < 0 /\
  -3 <> -2 /\
  run_gated (codes := negative_codes) op_getSignalStrength 42 true
    (session_in no_methods FMRADIO_STATE_STARTED)
  = (Some (-3), session_in no_methods FMRADIO_STATE_STARTED, [Throw IoError]).
Proof.
  split; [reflexivity | split; [reflexivity | split; [lia | split; [lia |]]]].
  apply (@C8_null_pointer_is_reported_as_IoError negative_codes
           op_getSignalStrength 42 true
           (session_in no_methods FMRADIO_STATE_STARTED));
    cbn; solve [reflexivity | lia].
Defined.

Lemma C10_thread_creation_failure_goes_idle_witness :
  (state (session_in all_methods FMRADIO_STATE_PAUSED) = FMRADIO_STATE_STARTED \/
   state (session_in all_methods FMRADIO_STATE_PAUSED) = FMRADIO_STATE_PAUSED) /\
  -1 < 0 /\
  -1 <> -2 /\
  state (final (androidFmRadioRxScan (codes := negative_codes) FMRADIO_SEEK_DOWN
                  false (session_in all_methods FMRADIO_STATE_PAUSED)))
    = FMRADIO_STATE_IDLE /\
  state (final (androidFmRadioRxStartFullScan (codes := negative_codes)
                  false (session_in all_methods FMRADIO_STATE_PAUSED)))
    = FMRADIO_STATE_IDLE.
Proof.
  split; [right; reflexivity | split; [lia | split; [lia |]]].
  destruct (@C10_thread_creation_failure_goes_idle negative_codes
              FMRADIO_SEEK_DOWN (session_in all_methods FMRADIO_STATE_PAUSED))
    as (_ & _ & Hscan & Hfull & _);
    [right; reflexivity | reflexivity | reflexivity | cbn; lia | cbn; lia |].
  split; assumption.
Defined.

(** * Further properties of the receiver *)

(** ** Scan requests and their workers *)

Lemma full_scan_worker_run (retval : Z) (fs rs : list Z)
    (interference : M unit) (s0 s1 : FmSession_t) (t1 : list Action) :
  interference s0 = (tt, s1, t1) ->
  execute_androidFmRadioRxFullScan retval fs rs interference s0
  = (tt,
     final (execute_androidFmRadioRxFullScan_finish (oldState s0) retval fs rs s1),
     (if FmRadioState_eqb (oldState s0) FMRADIO_STATE_PAUSED
      then [Vendor v_resume] else [])
     ++ [Vendor v_full_scan] ++ t1
     ++ trace (execute_androidFmRadioRxFullScan_finish (oldState s0) retval fs rs s1)).
Proof.
  intros Hi.
  unfold execute_androidFmRadioRxFullScan, execute_androidFmRadioRxFullScan_entry.
  generalize execute_androidFmRadioRxFullScan_finish; intros fin.
  unfold vendor, emit, gets, bind, ret, final, trace.
  destruct (FmRadioState_eqb (oldState s0) FMRADIO_STATE_PAUSED); cbn;
    rewrite Hi;
    destruct (fin (oldState s0) retval fs rs s1) as [[[] s2] t2];
    reflexivity.
Qed.

(** Sequencing two computations: the second starts from the session the
    first one left. *)
Lemma run_bind {A B : Type} (c : M A) (k : A -> M B) (s s1 : FmSession_t)
    (a : A) (t1 : list Action) :
  c s = (a, s1, t1) ->
  bind c k s = (result (k a s1), final (k a s1), t1 ++ trace (k a s1)).
Proof.
  intros Hc; unfold bind, result, final, trace; rewrite Hc.
  destruct (k a s1) as [[b s2] t2]; reflexivity.
Qed.

Lemma final_of_run {A : Type} (a : A) (s : FmSession_t) (t : list Action) :
  final (a, s, t) = s.
Proof. reflexivity. Qed.

Lemma trace_of_run {A : Type} (a : A) (s : FmSession_t) (t : list Action) :
  trace (a, s, t) = t.
Proof. reflexivity. Qed.

Lemma result_of_run {A : Type} (a : A) (s : FmSession_t) (t : list Action) :
  result (a, s, t) = a.
Proof. reflexivity. Qed.

Lemma run_eta {A : Type} (r : A * FmSession_t * list Action) :
  r = (result r, final r, trace r).
Proof. destruct r as [[a s] t]; reflexivity. Qed.


Section ScanRequests.

Context {codes : fmradio_status_codes}.

(** The closing block lets the success value 0 through when 0 is not the
    invalid-state code. *)
Lemma throw_for_success (s : FmSession_t) :
  FMRADIO_INVALID_STATE <> 0 ->
  throw_for 0 s = (tt, s, []).
Proof.
  intros Hne; unfold throw_for.
  assert (He : (0 =? FMRADIO_INVALID_STATE) = false)
    by (apply Z.eqb_neq; congruence).
  rewrite He; reflexivity.
Qed.

Lemma scan_request_accepted (d : fmradio_seek_direction_t) (s : FmSession_t) :
  state s = FMRADIO_STATE_STARTED \/ state s = FMRADIO_STATE_PAUSED ->
  scan (vendorMethods_p s) = true ->
  FMRADIO_INVALID_STATE <> 0 ->
  androidFmRadioRxScan d true s
  = (tt,
     with_lastScanAborted false
       (with_state FMRADIO_STATE_SCANNING (with_oldState (state s) s)),
     [Notify (onStateChanged FMRADIO_STATE_SCANNING (state s));
      PthreadCreate (worker_scan d) true]).
Proof.
  destruct s as [m reg st olds pp ab]; cbn; intros Hst Hscan Hne.
  unfold androidFmRadioRxScan; unfold_session.
  destruct Hst as [-> | ->]; cbn; rewrite Hscan; cbn;
    rewrite throw_for_success by assumption; reflexivity.
Qed.

Lemma full_scan_request_accepted (s : FmSession_t) :
  state s = FMRADIO_STATE_STARTED \/ state s = FMRADIO_STATE_PAUSED ->
  full_scan (vendorMethods_p s) = true ->
  FMRADIO_INVALID_STATE <> 0 ->
  androidFmRadioRxStartFullScan true s
  = (tt,
     with_lastScanAborted false
       (with_state FMRADIO_STATE_SCANNING (with_oldState (state s) s)),
     [Notify (onStateChanged FMRADIO_STATE_SCANNING (state s));
      PthreadCreate worker_full_scan true]).
Proof.
  destruct s as [m reg st olds pp ab]; cbn; intros Hst Hscan Hne.
  unfold androidFmRadioRxStartFullScan; unfold_session.
  destruct Hst as [-> | ->]; cbn; rewrite Hscan; cbn;
    rewrite throw_for_success by assumption; reflexivity.
Qed.

(** X1. An accepted scan request followed by its worker, with nothing
    else touching the session and a vendor scan that succeeds, is a round
    trip: the session is back in the state it was in before the request
    (or Paused if a pause was already pending), [oldState] remembers that
    state, both flags are cleared, and the one result that is emitted
    carries [aborted = false] whatever the flag was before the request. *)
Theorem scan_round_trip_restores_state :
  forall (d : fmradio_seek_direction_t) (retval strength : Z) (s : FmSession_t),
    state s = FMRADIO_STATE_STARTED \/ state s = FMRADIO_STATE_PAUSED ->
    scan (vendorMethods_p s) = true ->
    FMRADIO_INVALID_STATE <> 0 ->
    0 <= retval ->
    final ((androidFmRadioRxScan d true ;;
            execute_androidFmRadioRxScan d retval strength (ret tt)) s)
    = with_pendingPause false
        (with_lastScanAborted false
           (with_oldState (state s)
              (with_state
                 (if pendingPause s then FMRADIO_STATE_PAUSED else state s) s))) /\
    filter is_scan_result
      (trace ((androidFmRadioRxScan d true ;;
               execute_androidFmRadioRxScan d retval strength (ret tt)) s))
    = [Notify (onScan retval
                 (if get_signal_strength (vendorMethods_p s)
                  then strength else -1)
                 false)].
Proof.
  intros d retval strength s Hst Hscan Hne Hret.
  rewrite (run_bind _ _ s _ tt _ (scan_request_accepted d s Hst Hscan Hne)).
  set (s1 := with_lastScanAborted false
               (with_state FMRADIO_STATE_SCANNING (with_oldState (state s) s))).
  rewrite (scan_worker_run d retval strength (ret tt) s1 s1 [] eq_refl).
  unfold final at 1, trace at 1; cbn [fst snd].
  destruct (scan_finish_scanning (oldState s1) retval strength s1 eq_refl)
    as [Hfin Htr].
  rewrite Hfin, Htr.
  apply Z.leb_le in Hret; rewrite Hret.
  destruct s as [m reg st olds pp ab]; cbn in *.
  destruct Hst as [-> | ->]; destruct pp; destruct (get_signal_strength m);
    cbn; split; reflexivity.
Qed.

(** X2. The same round trip for a full-band scan: state restored,
    [oldState] set, both flags cleared, one onFullScan with
    [aborted = false]. *)
Theorem full_scan_round_trip_restores_state :
  forall (retval : Z) (fs rs : list Z) (s : FmSession_t),
    state s = FMRADIO_STATE_STARTED \/ state s = FMRADIO_STATE_PAUSED ->
    full_scan (vendorMethods_p s) = true ->
    FMRADIO_INVALID_STATE <> 0 ->
    0 <= retval ->
    final ((androidFmRadioRxStartFullScan true ;;
            execute_androidFmRadioRxFullScan retval fs rs (ret tt)) s)
    = with_pendingPause false
        (with_lastScanAborted false
           (with_oldState (state s)
              (with_state
                 (if pendingPause s then FMRADIO_STATE_PAUSED else state s) s))) /\
    filter is_scan_result
      (trace ((androidFmRadioRxStartFullScan true ;;
               execute_androidFmRadioRxFullScan retval fs rs (ret tt)) s))
    = [Notify (onFullScan retval fs rs false)].
Proof.
  intros retval fs rs s Hst Hscan Hne Hret.
  rewrite (run_bind _ _ s _ tt _ (full_scan_request_accepted s Hst Hscan Hne)).
  set (s1 := with_lastScanAborted false
               (with_state FMRADIO_STATE_SCANNING (with_oldState (state s) s))).
  rewrite (full_scan_worker_run retval fs rs (ret tt) s1 s1 [] eq_refl).
  unfold final at 1, trace at 1; cbn [fst snd].
  destruct (full_scan_finish_scanning (oldState s1) retval fs rs s1 eq_refl)
    as [Hfin Htr].
  rewrite Hfin, Htr.
  apply Z.leb_le in Hret; rewrite Hret.
  destruct s as [m reg st olds pp ab]; cbn in *.
  destruct Hst as [-> | ->]; destruct pp; cbn; split; reflexivity.
Qed.


(** X4. A vendor forced reset delivered while the vendor scan runs: the
    session ends Idle, the reset is notified once, and the worker reports
    onError, without any scan result and without calling the vendor
    again. *)
Theorem forced_reset_during_scan :
  forall (d : fmradio_seek_direction_t) (retval strength reason : Z)
         (fs rs : list Z) (s : FmSession_t),
    state s = FMRADIO_STATE_SCANNING ->
    (state (final (execute_androidFmRadioRxScan d retval strength
                     (androidFmRadioRxCallbackOnVendorForcedReset reason) s))
       = FMRADIO_STATE_IDLE /\
     trace (execute_androidFmRadioRxScan d retval strength
              (androidFmRadioRxCallbackOnVendorForcedReset reason) s)
     = (if FmRadioState_eqb (oldState s) FMRADIO_STATE_PAUSED
        then [Vendor v_resume] else [])
       ++ [Vendor (v_scan d);
           Notify (onStateChanged FMRADIO_STATE_IDLE FMRADIO_STATE_SCANNING);
           Notify (onForcedReset reason);
           Notify onError]) /\
    (state (final (execute_androidFmRadioRxFullScan retval fs rs
                     (androidFmRadioRxCallbackOnVendorForcedReset reason) s))
       = FMRADIO_STATE_IDLE /\
     trace (execute_androidFmRadioRxFullScan retval fs rs
              (androidFmRadioRxCallbackOnVendorForcedReset reason) s)
     = (if FmRadioState_eqb (oldState s) FMRADIO_STATE_PAUSED
        then [Vendor v_resume] else [])
       ++ [Vendor v_full_scan;
           Notify (onStateChanged FMRADIO_STATE_IDLE FMRADIO_STATE_SCANNING);
           Notify (onForcedReset reason);
           Notify onError]).
Proof.
  intros d retval strength reason fs rs s Hst.
  pose proof (forced_reset_run reason s) as Hfr.
  rewrite Hst in Hfr; cbn in Hfr.
  rewrite (scan_worker_run d retval strength _ s _ _ Hfr).
  rewrite (full_scan_worker_run retval fs rs _ s _ _ Hfr).
  rewrite scan_finish_stale by (cbn; discriminate).
  rewrite full_scan_finish_stale by (cbn; discriminate).
  unfold final, trace; cbn [fst snd].
  destruct (FmRadioState_eqb (oldState s) FMRADIO_STATE_PAUSED);
    repeat split; reflexivity.
Qed.

(** X5. When the scan was requested while Paused, the single-frequency
    worker puts the vendor back to sleep first and reads the signal
    strength afterwards. *)
Theorem scan_worker_measures_after_pause :
  forall (retval strength : Z) (s : FmSession_t),
    state s = FMRADIO_STATE_SCANNING ->
    pendingPause s = false ->
    get_signal_strength (vendorMethods_p s) = true ->
    0 <= retval ->
    trace (execute_androidFmRadioRxScan_finish FMRADIO_STATE_PAUSED retval
             strength s)
    = [Vendor v_pause;
       Notify (onStateChanged FMRADIO_STATE_PAUSED FMRADIO_STATE_SCANNING);
       Vendor v_get_signal_strength;
       Notify (onScan retval strength (lastScanAborted s))].
Proof.
  intros retval strength s Hst Hpp Hgss Hret.
  destruct (scan_finish_scanning FMRADIO_STATE_PAUSED retval strength s Hst)
    as [_ ->].
  apply Z.leb_le in Hret; rewrite Hret, Hpp, Hgss; reflexivity.
Qed.

End ScanRequests.

(** ** The capability-gated operations, beyond the null-pointer case *)

Section GatedOperations.

Context {codes : fmradio_status_codes}.

(** Unfolds a capability-gated operation down to its closing block. *)
Ltac unfold_gated :=
  unfold run_gated, androidFmRadioRxGetSignalStrength, androidFmRadioRxScan,
    androidFmRadioRxStartFullScan, androidFmRadioRxSetAutomaticAFSwitching,
    androidFmRadioRxSetAutomaticTASwitching, androidFmRadioRxSetForceMono,
    androidFmRadioRxSetThreshold, androidFmRadioRxGetThreshold;
  unfold_session; cbn.

(** Replaces a run of the closing block by its three possible outcomes. *)
Ltac split_throw :=
  match goal with
  | |- context [throw_for ?r ?s] =>
      let H := fresh "Hthrow" in
      let E := fresh "Ecase" in
      destruct (throw_for_run r s) as [H E];
      rewrite H; clear H;
      destruct E as [E | [E | E]]; rewrite E; clear E
  end.

Lemma invalid_state_run (op : gated_operation) (vendor_ret : Z)
    (pthread_create_ok : bool) (s : FmSession_t) :
  table_cell IsValidRxEventForState (gated_event op) (state s) = false ->
  run_gated op vendor_ret pthread_create_ok s
  = (match op with
     | op_getSignalStrength | op_getThreshold => Some FMRADIO_INVALID_STATE
     | _ => None
     end,
     s,
     match op with
     | op_setThreshold _ => []
     | _ => [Throw InvalidState]
     end).
Proof.
  destruct s as [m reg st olds pp ab]; intros Hinv; cbn in Hinv.
  destruct op; cbn in Hinv; unfold_gated; rewrite Hinv; cbn;
    rewrite ?throw_for_invalid_state; reflexivity.
Qed.

(** X6. Served in a state where its event is not valid, a capability-gated
    operation calls nothing and leaves the session alone.  All of them
    raise InvalidState, except setThreshold, which raises nothing: its
    invalid-state exit jumps past the block that raises the exception. *)
Theorem invalid_state_rejection :
  forall (op : gated_operation) (vendor_ret : Z) (pthread_create_ok : bool)
         (s : FmSession_t),
    table_cell IsValidRxEventForState (gated_event op) (state s) = false ->
    run_gated op vendor_ret pthread_create_ok s
    = (match op with
       | op_getSignalStrength | op_getThreshold => Some FMRADIO_INVALID_STATE
       | _ => None
       end,
       s,
       match op with
       | op_setThreshold _ => []
       | _ => [Throw InvalidState]
       end).
Proof.
  intros op v ok s Hinv; exact (invalid_state_run op v ok s Hinv).
Qed.

(** With the vendor function present and the state valid, the operation
    is its vendor call, inside the resume/pause bracket where it has one,
    followed by the closing block applied to the vendor's answer. *)
Lemma pointer_present_run (op : gated_operation) (vendor_ret : Z)
    (pthread_create_ok : bool) (s : FmSession_t) :
  is_parameter_operation op = true ->
  table_cell IsValidRxEventForState (gated_event op) (state s) = true ->
  gated_pointer op (vendorMethods_p s) = true ->
  run_gated op vendor_ret pthread_create_ok s
  = (match op with
     | op_getSignalStrength | op_getThreshold => Some vendor_ret
     | _ => None
     end,
     s,
     (if is_bracketed op && FmRadioState_eqb (state s) FMRADIO_STATE_PAUSED
      then [Vendor v_resume] else [])
     ++ map Vendor (gated_vendor_call op)
     ++ (if is_bracketed op && FmRadioState_eqb (state s) FMRADIO_STATE_PAUSED
         then [Vendor v_pause] else [])
     ++ trace (throw_for vendor_ret s)).
Proof.
  destruct s as [m reg st olds pp ab]; intros Hop Hvalid Hptr.
  cbn in Hvalid, Hptr.
  destruct op; try discriminate Hop; clear Hop; cbn in Hvalid, Hptr;
    destruct st; try discriminate Hvalid;
    unfold_gated; rewrite Hptr; cbn;
    match goal with
    | |- context [throw_for ?r ?s] => rewrite (proj1 (throw_for_run r s))
    end; cbn; rewrite ?app_nil_r; reflexivity.
Qed.

(** X7. The six operations that do not start a worker never change any
    field of the session, never notify the Java layer and never create a
    thread, whatever the state, the vendor pointers and the vendor's
    answer. *)
Theorem parameter_operations_keep_session :
  forall (op : gated_operation) (vendor_ret : Z) (pthread_create_ok : bool)
         (s : FmSession_t),
    is_parameter_operation op = true ->
    final (run_gated op vendor_ret pthread_create_ok s) = s /\
    filter is_notification (trace (run_gated op vendor_ret pthread_create_ok s))
      = [] /\
    filter is_thread_creation
      (trace (run_gated op vendor_ret pthread_create_ok s)) = [].
Proof.
  intros op v ok s Hop.
  destruct (table_cell IsValidRxEventForState (gated_event op) (state s))
    eqn:Hvalid.
  - destruct (gated_pointer op (vendorMethods_p s)) eqn:Hptr.
    + rewrite (pointer_present_run op v ok s Hop Hvalid Hptr).
      rewrite final_of_run, !trace_of_run.
      rewrite !filter_app.
      destruct (throw_for_run v s) as [_ [-> | [-> | ->]]];
        destruct (is_bracketed op && FmRadioState_eqb (state s) FMRADIO_STATE_PAUSED);
        destruct op; cbn; auto.
    + rewrite (null_pointer_run op v ok s Hvalid Hptr).
      rewrite final_of_run, !trace_of_run.
      destruct (throw_for_run FMRADIO_UNSUPPORTED_OPERATION s)
        as [_ [-> | [-> | ->]]]; cbn; auto.
  - rewrite (invalid_state_run op v ok s Hvalid).
    destruct op; cbn; auto.
Qed.

(** X8. In a valid state and with the vendor function present, a vendor
    answer that is negative (and is not the invalid-state code) makes the
    operation raise IoError, exactly once; the two operations that return
    a value return the vendor's answer unchanged. *)
Theorem vendor_failure_raises_IoError :
  forall (op : gated_operation) (vendor_ret : Z) (pthread_create_ok : bool)
         (s : FmSession_t),
    is_parameter_operation op = true ->
    table_cell IsValidRxEventForState (gated_event op) (state s) = true ->
    gated_pointer op (vendorMethods_p s) = true ->
    vendor_ret < 0 ->
    vendor_ret <> FMRADIO_INVALID_STATE ->
    result (run_gated op vendor_ret pthread_create_ok s)
      = (match op with
         | op_getSignalStrength | op_getThreshold => Some vendor_ret
         | _ => None
         end) /\
    filter is_throw (trace (run_gated op vendor_ret pthread_create_ok s))
      = [Throw IoError].
Proof.
  intros op v ok s Hop Hvalid Hptr Hneg Hne.
  rewrite (pointer_present_run op v ok s Hop Hvalid Hptr).
  rewrite (throw_for_negative v s Hneg Hne).
  rewrite result_of_run, trace_of_run; split; [reflexivity |].
  rewrite !filter_app.
  destruct (is_bracketed op && FmRadioState_eqb (state s) FMRADIO_STATE_PAUSED);
    destruct op; reflexivity.
Qed.

(** X9. In a valid state and with the vendor function present, a vendor
    answer equal to FMRADIO_INVALID_STATE is reported as InvalidState,
    although the vendor was called and the state was valid. *)
Theorem vendor_value_taken_for_invalid_state :
  forall (op : gated_operation) (pthread_create_ok : bool) (s : FmSession_t),
    is_parameter_operation op = true ->
    table_cell IsValidRxEventForState (gated_event op) (state s) = true ->
    gated_pointer op (vendorMethods_p s) = true ->
    existsb is_vendor_call
      (trace (run_gated op FMRADIO_INVALID_STATE pthread_create_ok s)) = true /\
    filter is_throw
      (trace (run_gated op FMRADIO_INVALID_STATE pthread_create_ok s))
      = [Throw InvalidState].
Proof.
  intros op ok s Hop Hvalid Hptr.
  rewrite (pointer_present_run op _ ok s Hop Hvalid Hptr).
  rewrite (throw_for_invalid_state s).
  rewrite !trace_of_run.
  rewrite !filter_app, !existsb_app.
  destruct (is_bracketed op && FmRadioState_eqb (state s) FMRADIO_STATE_PAUSED);
    destruct op; try discriminate Hop; split; reflexivity.
Qed.

(** X10. Switching automatic AF or TA on a Paused session calls the
    vendor function directly: it is the only vendor call, the vendor is
    neither resumed before nor paused after. *)
Theorem af_ta_switching_does_not_wake_vendor :
  forall (automatic : bool) (vendor_ret : Z) (s : FmSession_t),
    state s = FMRADIO_STATE_PAUSED ->
    set_automatic_af_switching (vendorMethods_p s) = true ->
    set_automatic_ta_switching (vendorMethods_p s) = true ->
    filter is_vendor_call
      (trace (androidFmRadioRxSetAutomaticAFSwitching automatic vendor_ret s))
      = [Vendor (v_set_automatic_af_switching automatic)] /\
    filter is_vendor_call
      (trace (androidFmRadioRxSetAutomaticTASwitching automatic vendor_ret s))
      = [Vendor (v_set_automatic_ta_switching automatic)].
Proof.
  intros b v [m reg st olds pp ab]; cbn; intros -> Haf Hta.
  unfold androidFmRadioRxSetAutomaticAFSwitching,
    androidFmRadioRxSetAutomaticTASwitching; unfold_session; cbn.
  rewrite Haf, Hta; cbn.
  split; split_throw; reflexivity.
Qed.

(** How a scan request ends once the pointer is there and the state is
    valid: the closing block sees 0 or FMRADIO_IO_ERROR. *)
Lemma scan_request_throws (op : gated_operation) (vendor_ret : Z)
    (pthread_create_ok : bool) (s : FmSession_t) :
  is_parameter_operation op = false ->
  table_cell IsValidRxEventForState (gated_event op) (state s) = true ->
  gated_pointer op (vendorMethods_p s) = true ->
  exists s' : FmSession_t,
    filter is_throw (trace (run_gated op vendor_ret pthread_create_ok s))
    = trace (throw_for (if pthread_create_ok then 0 else FMRADIO_IO_ERROR) s').
Proof.
  destruct s as [m reg st olds pp ab]; intros Hop Hvalid Hptr.
  cbn in Hvalid, Hptr.
  destruct op; try discriminate Hop; clear Hop; cbn in Hvalid, Hptr;
    destruct st; try discriminate Hvalid;
    unfold_gated; rewrite Hptr; cbn;
    destruct pthread_create_ok; cbn;
    match goal with
    | |- context [throw_for ?r ?s] =>
        exists s; destruct (throw_for_run r s) as [Hrun [E | [E | E]]];
        rewrite Hrun; cbn; rewrite E; reflexivity
    end.
Qed.

(** X11. No capability-gated operation raises more than one exception,
    whatever its inputs. *)
Theorem at_most_one_exception :
  forall (op : gated_operation) (vendor_ret : Z) (pthread_create_ok : bool)
         (s : FmSession_t),
    (length (filter is_throw
               (trace (run_gated op vendor_ret pthread_create_ok s))) <= 1)%nat.
Proof.
  intros op v ok s.
  destruct (table_cell IsValidRxEventForState (gated_event op) (state s))
    eqn:Hvalid.
  - destruct (gated_pointer op (vendorMethods_p s)) eqn:Hptr.
    + destruct (is_parameter_operation op) eqn:Hop.
      * rewrite (pointer_present_run op v ok s Hop Hvalid Hptr).
        rewrite trace_of_run, !filter_app.
        destruct (throw_for_run v s) as [_ [-> | [-> | ->]]];
          destruct (is_bracketed op
                    && FmRadioState_eqb (state s) FMRADIO_STATE_PAUSED);
          destruct op; cbn; lia.
      * destruct (scan_request_throws op v ok s Hop Hvalid Hptr) as [s' ->].
        destruct (throw_for_run (if ok then 0 else FMRADIO_IO_ERROR) s')
          as [_ [-> | [-> | ->]]]; cbn; lia.
    + rewrite (null_pointer_run op v ok s Hvalid Hptr).
      rewrite trace_of_run.
      destruct (throw_for_run FMRADIO_UNSUPPORTED_OPERATION s)
        as [_ [-> | [-> | ->]]]; cbn; lia.
  - rewrite (invalid_state_run op v ok s Hvalid).
    destruct op; cbn; lia.
Qed.

(** X12. On a registered session in Started, the support query answers
    [true] exactly when a getSignalStrength call reaches the vendor. *)
Theorem signal_strength_support_predicts_operation :
  forall (vendor_ret : Z) (s : FmSession_t),
    isRegistered s = true ->
    state s = FMRADIO_STATE_STARTED ->
    result (androidFmRadioRxIsSignalStrengthSupported s)
    = existsb is_vendor_call
        (trace (androidFmRadioRxGetSignalStrength vendor_ret s)).
Proof.
  intros v [m reg st olds pp ab]; cbn; intros -> ->.
  unfold androidFmRadioRxIsSignalStrengthSupported,
    androidFmRadioRxGetSignalStrength; unfold_session; cbn.
  destruct (get_signal_strength m); cbn; split_throw; reflexivity.
Qed.

End GatedOperations.

(** The support query of an unregistered session answers [false]; the
    query never changes the session and performs no action. *)
Lemma signal_strength_support_run (s : FmSession_t) :
  androidFmRadioRxIsSignalStrengthSupported s
  = (isRegistered s && get_signal_strength (vendorMethods_p s), s, []).
Proof.
  destruct s as [m reg st olds pp ab].
  unfold androidFmRadioRxIsSignalStrengthSupported; unfold_session; cbn.
  destruct reg; cbn; [destruct (get_signal_strength m) |]; reflexivity.
Qed.

(** ** Vendor forced reset, continued *)

(** X13. A second forced reset finds the session Idle: it changes
    nothing and only notifies the reset, without any state-change
    notification. *)
Theorem forced_reset_is_idempotent :
  forall (reason1 reason2 : Z) (s : FmSession_t),
    androidFmRadioRxCallbackOnVendorForcedReset reason2
      (final (androidFmRadioRxCallbackOnVendorForcedReset reason1 s))
    = (tt, final (androidFmRadioRxCallbackOnVendorForcedReset reason1 s),
       [Notify (onForcedReset reason2)]).
Proof.
  intros r1 r2 s.
  rewrite (forced_reset_run r1 s); unfold final; cbn [fst snd].
  rewrite forced_reset_run; reflexivity.
Qed.

(** X14. A forced reset clears neither flag: a pause left pending by an
    interrupted scan, the abort flag and [oldState] survive it. *)
Theorem forced_reset_keeps_scan_flags :
  forall (reason : Z) (s : FmSession_t),
    pendingPause (final (androidFmRadioRxCallbackOnVendorForcedReset reason s))
      = pendingPause s /\
    lastScanAborted (final (androidFmRadioRxCallbackOnVendorForcedReset reason s))
      = lastScanAborted s /\
    oldState (final (androidFmRadioRxCallbackOnVendorForcedReset reason s))
      = oldState s.
Proof.
  intros reason s; rewrite (forced_reset_run reason s).
  destruct s; cbn; auto.
Qed.

(** ** Delivery to the Java layer *)

Lemma mutex_replay_app (held : bool) (t1 t2 : list jni_action) :
  mutex_replay held (t1 ++ t2)
  = match mutex_replay held t1 with
    | Some held' => mutex_replay held' t2
    | None => None
    end.
Proof.
  revert held; induction t1 as [| a t1 IH]; intros held; [reflexivity |].
  destruct a; destruct held; cbn; auto.
Qed.

(** X15. Every callback of the service layer, entered with the mutex
    held, returns with the mutex held, never locks it twice, and makes its
    Java call (if any) while the mutex is released; this for every answer
    of the JVM. *)
Theorem service_callbacks_keep_mutex :
  forall (jvm : notification -> jvm_answers) (n : notification)
         (command : string) (retBundle : jvalue),
    mutex_replay true (FmRadioRxCallbacks jvm n) = Some true /\
    mutex_replay true (androidFmRadioRxCallbackOnStarted (jvm n)) = Some true /\
    mutex_replay true
      (androidFmRadioRxCallbackOnExtraCommand (jvm n) command retBundle)
      = Some true.
Proof.
  intros jvm n command retBundle.
  destruct (jvm n) as [e a f] eqn:Hj.
  repeat split.
  - destruct n; cbn; rewrite Hj; destruct e, a, f; reflexivity.
  - destruct a, f; reflexivity.
  - destruct a, f; reflexivity.
Qed.

(** The bundle handed to Java holds what the put calls put, in their
    order. *)
Lemma rds_bundle_is_what_was_put (RDS_MAX_AFS : Z) (t : fmradio_rds_bundle_t) :
  flat_map put_entry (rds_bundle_calls RDS_MAX_AFS t) = rds_bundle RDS_MAX_AFS t.
Proof.
  unfold rds_bundle_calls, rds_bundle.
  destruct ((0 <? num_afs t) && (num_afs t <? RDS_MAX_AFS)); reflexivity.
Qed.


Lemma callback_keeps_mutex (jvm : notification -> jvm_answers)
    (n : notification) :
  mutex_replay true (FmRadioRxCallbacks jvm n) = Some true.
Proof.
  destruct (jvm n) as [e a f] eqn:Hj.
  destruct n; cbn; rewrite Hj; destruct e, a, f; reflexivity.
Qed.

Lemma notifications_keep_mutex (jvm : notification -> jvm_answers)
    (t : list Action) :
  mutex_replay true (jni_trace jvm t) = Some true.
Proof.
  induction t as [| a t IH]; [reflexivity |].
  unfold jni_trace in *; cbn [flat_map].
  rewrite mutex_replay_app.
  destruct a as [c | n | e | w b]; cbn; try exact IH.
  rewrite callback_keeps_mutex; exact IH.
Qed.

(** X17. Whatever a critical section of the state machine does, and
    however many notifications it raises, it ends with the mutex held and
    every Java call it causes is made with the mutex released. *)
Theorem critical_section_keeps_mutex :
  forall (jvm : notification -> jvm_answers) (t : list Action),
    mutex_replay true (jni_trace jvm t) = Some true.
Proof.
  exact notifications_keep_mutex.
Qed.

(** X18. The vendor forced-reset callback, entered without the mutex,
    returns without it, and both of its notifications reach Java with the
    mutex released. *)
Theorem vendor_forced_reset_releases_mutex :
  forall (jvm : notification -> jvm_answers) (reason : Z) (s : FmSession_t),
    mutex_replay false (vendor_forced_reset_jni jvm reason s) = Some false.
Proof.
  intros jvm reason s; unfold vendor_forced_reset_jni.
  cbn [mutex_replay]; rewrite mutex_replay_app.
  rewrite notifications_keep_mutex; reflexivity.
Qed.

(** X19. A notification reaches Java at most once, and exactly when the
    method is found and the thread has an environment: the state-change
    and forced-reset callbacks accept an environment the thread already
    has or a successful attach; the error and scan-result callbacks depend
    on the attach alone. *)
Theorem notification_delivered_once :
  forall (jvm : notification -> jvm_answers) (n : notification),
    length (filter is_java_call (FmRadioRxCallbacks jvm n))
    = if method_found (jvm n)
         && match n with
            | onStateChanged _ _ | onForcedReset _ =>
                env_ok (jvm n) || attach_ok (jvm n)
            | _ => attach_ok (jvm n)
            end
      then 1%nat else 0%nat.
Proof.
  intros jvm n; destruct (jvm n) as [e a f] eqn:Hj.
  destruct n; cbn; rewrite Hj; destruct e, a, f; reflexivity.
Qed.

(** X20. The state-change and forced-reset callbacks detach the thread
    only if they attached it themselves; the error and scan-result
    callbacks detach it whenever the attach succeeded, also when the thread
    already had an environment. *)
Theorem detach_policy :
  forall (jvm : notification -> jvm_answers) (n : notification),
    existsb is_detach (FmRadioRxCallbacks jvm n)
    = match n with
      | onStateChanged _ _ | onForcedReset _ =>
          negb (env_ok (jvm n)) && attach_ok (jvm n)
      | _ => attach_ok (jvm n)
      end.
Proof.
  intros jvm n; destruct (jvm n) as [e a f] eqn:Hj.
  destruct n; cbn; rewrite Hj; destruct e, a, f; reflexivity.
Qed.

(** X21. The two arrays handed to notifyOnFullScan both have exactly
    [noItems] entries, the first [noItems] of each buffer. *)
Theorem full_scan_arrays_have_noItems_entries :
  forall (jvm : jvm_answers) (noItems : Z) (frequencies sigStrengths : list Z)
         (aborted : bool),
    attach_ok jvm = true ->
    method_found jvm = true ->
    0 <= noItems ->
    noItems <= Z.of_nat (length frequencies) ->
    noItems <= Z.of_nat (length sigStrengths) ->
    exists f g : list Z,
      filter is_java_call
        (androidFmRadioRxCallbackOnFullScan jvm noItems frequencies
           sigStrengths aborted)
      = [CallVoidMethod "notifyOnFullScan" "([I[IZ)V"
           [JIntArray f; JIntArray g; JBoolean aborted]] /\
      Z.of_nat (length f) = noItems /\
      Z.of_nat (length g) = noItems /\
      f = firstn (length f) frequencies /\
      g = firstn (length g) sigStrengths.
Proof.
  intros [e a m] noItems fs gs aborted Ha Hm H0 Hf Hg; cbn in Ha, Hm; subst.
  exists (firstn (Z.to_nat noItems) fs), (firstn (Z.to_nat noItems) gs).
  assert (Lf : length (firstn (Z.to_nat noItems) fs) = Z.to_nat noItems)
    by (apply firstn_length_le; lia).
  assert (Lg : length (firstn (Z.to_nat noItems) gs) = Z.to_nat noItems)
    by (apply firstn_length_le; lia).
  rewrite Lf, Lg.
  repeat split; try reflexivity; lia.
Qed.

(** X22. An empty full-scan result is a result: a full-band worker whose
    vendor scan returns 0 items, on a session still Scanning, makes Java
    receive notifyOnFullScan once, with two empty arrays. *)
Theorem empty_full_scan_is_delivered :
  forall (jvm : notification -> jvm_answers) (old : FmRadioState_t)
         (fs rs : list Z) (s : FmSession_t),
    (forall n, attach_ok (jvm n) = true /\ method_found (jvm n) = true) ->
    state s = FMRADIO_STATE_SCANNING ->
    filter (is_call_of "notifyOnFullScan")
      (jni_trace jvm
         (trace (execute_androidFmRadioRxFullScan_finish old 0 fs rs s)))
    = [CallVoidMethod "notifyOnFullScan" "([I[IZ)V"
         [JIntArray []; JIntArray []; JBoolean (lastScanAborted s)]].
Proof.
  intros jvm old fs rs s Hjvm Hst.
  destruct (full_scan_finish_scanning old 0 fs rs s Hst) as [_ ->].
  cbn [Z.leb Z.compare jni_trace flat_map].
  set (n1 := onStateChanged
               (if pendingPause s then FMRADIO_STATE_PAUSED else old)
               FMRADIO_STATE_SCANNING).
  set (n2 := onFullScan 0 fs rs (lastScanAborted s)).
  destruct (Hjvm n1) as [Ha1 Hm1]; destruct (Hjvm n2) as [Ha2 Hm2].
  unfold FmRadioRxCallbacks, n1 at 1, n2 at 1.
  unfold androidFmRadioRxCallbackOnStateChanged,
    androidFmRadioRxCallbackOnFullScan.
  fold n1 n2; rewrite Ha1, Hm1, Ha2, Hm2.
  destruct (env_ok (jvm n1)); reflexivity.
Qed.

(** X23. The RDS bundle carries the alternative-frequency list exactly
    when [0 < num_afs < RDS_MAX_AFS]: an empty list is left out, and so is
    a list of [RDS_MAX_AFS] entries.  No key is put twice. *)
Theorem rds_bundle_af_entry :
  forall (RDS_MAX_AFS : Z) (t : fmradio_rds_bundle_t),
    existsb (String.eqb "AF") (bundle_keys (rds_bundle RDS_MAX_AFS t))
    = (0 <? num_afs t) && (num_afs t <? RDS_MAX_AFS) /\
    NoDup (bundle_keys (rds_bundle RDS_MAX_AFS t)).
Proof.
  intros M t; unfold rds_bundle, bundle_keys.
  destruct ((0 <? num_afs t) && (num_afs t <? M)); cbn; split;
    try reflexivity;
    repeat (constructor; [cbn; intuition discriminate |]); constructor.
Qed.

(** X24. When the list is carried, it has exactly [num_afs] entries, the
    first [num_afs] of the structure's array. *)
Theorem rds_bundle_af_length :
  forall (RDS_MAX_AFS : Z) (t : fmradio_rds_bundle_t),
    0 < num_afs t ->
    num_afs t < RDS_MAX_AFS ->
    RDS_MAX_AFS <= Z.of_nat (length (af t)) ->
    exists l : list Z,
      bundle_get "AF" (rds_bundle RDS_MAX_AFS t) = Some (JIntArray l) /\
      Z.of_nat (length l) = num_afs t /\
      l = firstn (length l) (af t).
Proof.
  intros M t Hpos Hlt Hlen.
  exists (firstn (Z.to_nat (num_afs t)) (af t)).
  assert (L : length (firstn (Z.to_nat (num_afs t)) (af t))
              = Z.to_nat (num_afs t))
    by (apply firstn_length_le; lia).
  rewrite L; repeat split; [| lia].
  unfold rds_bundle.
  apply Z.ltb_lt in Hpos; apply Z.ltb_lt in Hlt.
  rewrite Hpos, Hlt; reflexivity.
Qed.

(** ** Concrete runs of the further properties *)

Lemma scan_round_trip_restores_state_witness :
  (state (session_in all_methods FMRADIO_STATE_PAUSED) = FMRADIO_STATE_STARTED \/
   state (session_in all_methods FMRADIO_STATE_PAUSED) = FMRADIO_STATE_PAUSED) /\
  state (final ((androidFmRadioRxScan (codes := negative_codes)
                   FMRADIO_SEEK_UP true ;;
                 execute_androidFmRadioRxScan FMRADIO_SEEK_UP 98300 7 (ret tt))
                  (session_in all_methods FMRADIO_STATE_PAUSED)))
    = FMRADIO_STATE_PAUSED.
Proof.
  split; [right; reflexivity |].
  destruct (@scan_round_trip_restores_state negative_codes FMRADIO_SEEK_UP
              98300 7 (session_in all_methods FMRADIO_STATE_PAUSED))
    as [Hfin _];
    [right; reflexivity | reflexivity | cbn; lia | lia |].
  rewrite Hfin; reflexivity.
Defined.

Lemma full_scan_round_trip_restores_state_witness :
  (state (session_in all_methods FMRADIO_STATE_STARTED) = FMRADIO_STATE_STARTED \/
   state (session_in all_methods FMRADIO_STATE_STARTED) = FMRADIO_STATE_PAUSED) /\
  state (final ((androidFmRadioRxStartFullScan (codes := negative_codes) true ;;
                 execute_androidFmRadioRxFullScan 2 [98300; 101100] [7; 9]
                   (ret tt))
                  (session_in all_methods FMRADIO_STATE_STARTED)))
    = FMRADIO_STATE_STARTED.
Proof.
  split; [left; reflexivity |].
  destruct (@full_scan_round_trip_restores_state negative_codes 2
              [98300; 101100] [7; 9]
              (session_in all_methods FMRADIO_STATE_STARTED))
    as [Hfin _];
    [left; reflexivity | reflexivity | cbn; lia | lia |].
  rewrite Hfin; reflexivity.
Defined.


Lemma forced_reset_during_scan_witness :
  state (scanning_from all_methods FMRADIO_STATE_PAUSED) = FMRADIO_STATE_SCANNING /\
  state (final (execute_androidFmRadioRxScan FMRADIO_SEEK_DOWN 98300 7
                  (androidFmRadioRxCallbackOnVendorForcedReset 1)
                  (scanning_from all_methods FMRADIO_STATE_PAUSED)))
    = FMRADIO_STATE_IDLE.
Proof.
  split; [reflexivity |].
  destruct (forced_reset_during_scan FMRADIO_SEEK_DOWN 98300 7 1 [] []
              (scanning_from all_methods FMRADIO_STATE_PAUSED) eq_refl)
    as [[Hst _] _].
  exact Hst.
Defined.

Lemma scan_worker_measures_after_pause_witness :
  state (scanning_from all_methods FMRADIO_STATE_PAUSED) = FMRADIO_STATE_SCANNING /\
  0 <= 98300 /\
  trace (execute_androidFmRadioRxScan_finish FMRADIO_STATE_PAUSED 98300 7
           (scanning_from all_methods FMRADIO_STATE_PAUSED))
  = [Vendor v_pause;
     Notify (onStateChanged FMRADIO_STATE_PAUSED FMRADIO_STATE_SCANNING);
     Vendor v_get_signal_strength;
     Notify (onScan 98300 7 false)].
Proof.
  split; [reflexivity | split; [lia |]].
  apply (scan_worker_measures_after_pause 98300 7
           (scanning_from all_methods FMRADIO_STATE_PAUSED));
    [reflexivity | reflexivity | reflexivity | lia].
Defined.

Lemma invalid_state_rejection_witness :
  table_cell IsValidRxEventForState (gated_event (op_setThreshold 5))
    (state (session_in all_methods FMRADIO_STATE_IDLE)) = false /\
  run_gated (codes := negative_codes) (op_setThreshold 5) 0 true
    (session_in all_methods FMRADIO_STATE_IDLE)
  = (None, session_in all_methods FMRADIO_STATE_IDLE, []) /\
  run_gated (codes := negative_codes) (op_setForceMono true) 0 true
    (session_in all_methods FMRADIO_STATE_IDLE)
  = (None, session_in all_methods FMRADIO_STATE_IDLE, [Throw InvalidState]).
Proof.
  split; [reflexivity | split].
  - apply (@invalid_state_rejection negative_codes (op_setThreshold 5) 0 true
             (session_in all_methods FMRADIO_STATE_IDLE)); reflexivity.
  - apply (@invalid_state_rejection negative_codes (op_setForceMono true) 0 true
             (session_in all_methods FMRADIO_STATE_IDLE)); reflexivity.
Defined.

Lemma parameter_operations_keep_session_witness :
  is_parameter_operation op_getThreshold = true /\
  final (run_gated (codes := negative_codes) op_getThreshold 12 true
           (session_in all_methods FMRADIO_STATE_PAUSED))
  = session_in all_methods FMRADIO_STATE_PAUSED.
Proof.
  split; [reflexivity |].
  destruct (@parameter_operations_keep_session negative_codes op_getThreshold
              12 true (session_in all_methods FMRADIO_STATE_PAUSED) eq_refl)
    as [Hfin _].
  exact Hfin.
Defined.

Lemma vendor_failure_raises_IoError_witness :
  -1 < 0 /\
  -1 <> -2 /\
  result (run_gated (codes := negative_codes) op_getSignalStrength (-1) true
            (session_in all_methods FMRADIO_STATE_STARTED)) = Some (-1) /\
  filter is_throw
    (trace (run_gated (codes := negative_codes) op_getSignalStrength (-1) true
              (session_in all_methods FMRADIO_STATE_STARTED)))
  = [Throw IoError].
Proof.
  split; [lia | split; [lia |]].
  apply (@vendor_failure_raises_IoError negative_codes op_getSignalStrength
           (-1) true (session_in all_methods FMRADIO_STATE_STARTED));
    cbn; solve [reflexivity | lia].
Defined.

Lemma vendor_value_taken_for_invalid_state_witness :
  table_cell IsValidRxEventForState (gated_event (op_setThreshold 5))
    (state (session_in all_methods FMRADIO_STATE_STARTED)) = true /\
  filter is_throw
    (trace (run_gated (codes := negative_codes) (op_setThreshold 5) (-2) true
              (session_in all_methods FMRADIO_STATE_STARTED)))
  = [Throw InvalidState].
Proof.
  split; [reflexivity |].
  destruct (@vendor_value_taken_for_invalid_state negative_codes
              (op_setThreshold 5) true
              (session_in all_methods FMRADIO_STATE_STARTED)
              eq_refl eq_refl eq_refl) as [_ Hthrow].
  exact Hthrow.
Defined.

Lemma af_ta_switching_does_not_wake_vendor_witness :
  state (session_in all_methods FMRADIO_STATE_PAUSED) = FMRADIO_STATE_PAUSED /\
  filter is_vendor_call
    (trace (androidFmRadioRxSetAutomaticAFSwitching (codes := negative_codes)
              true 0 (session_in all_methods FMRADIO_STATE_PAUSED)))
  = [Vendor (v_set_automatic_af_switching true)].
Proof.
  split; [reflexivity |].
  destruct (@af_ta_switching_does_not_wake_vendor negative_codes true 0
              (session_in all_methods FMRADIO_STATE_PAUSED)
              eq_refl eq_refl eq_refl) as [Haf _].
  exact Haf.
Defined.

Lemma signal_strength_support_predicts_operation_witness :
  isRegistered (session_in no_methods FMRADIO_STATE_STARTED) = true /\
  state (session_in no_methods FMRADIO_STATE_STARTED) = FMRADIO_STATE_STARTED /\
  result (androidFmRadioRxIsSignalStrengthSupported
            (session_in no_methods FMRADIO_STATE_STARTED))
  = existsb is_vendor_call
      (trace (androidFmRadioRxGetSignalStrength (codes := negative_codes) 42
                (session_in no_methods FMRADIO_STATE_STARTED))).
Proof.
  split; [reflexivity | split; [reflexivity |]].
  apply (@signal_strength_support_predicts_operation negative_codes 42
           (session_in no_methods FMRADIO_STATE_STARTED)); reflexivity.
Defined.

Lemma full_scan_arrays_have_noItems_entries_witness :
  0 <= 2 /\
  2 <= Z.of_nat (length [98300; 101100; 0]) /\
  exists f g : list Z,
    filter is_java_call
      (androidFmRadioRxCallbackOnFullScan
         {| env_ok := false; attach_ok := true; method_found := true |}
         2 [98300; 101100; 0] [7; 9; 0] false)
    = [CallVoidMethod "notifyOnFullScan" "([I[IZ)V"
         [JIntArray f; JIntArray g; JBoolean false]] /\
    Z.of_nat (length f) = 2 /\
    Z.of_nat (length g) = 2 /\
    f = firstn (length f) [98300; 101100; 0] /\
    g = firstn (length g) [7; 9; 0].
Proof.
  split; [lia | split; [cbn; lia |]].
  apply (full_scan_arrays_have_noItems_entries
           {| env_ok := false; attach_ok := true; method_found := true |}
           2 [98300; 101100; 0] [7; 9; 0] false);
    cbn; solve [reflexivity | lia].
Defined.

Lemma empty_full_scan_is_delivered_witness :
  state (scanning_from all_methods FMRADIO_STATE_STARTED) = FMRADIO_STATE_SCANNING /\
  filter (is_call_of "notifyOnFullScan")
    (jni_trace
       (fun _ => {| env_ok := false; attach_ok := true; method_found := true |})
       (trace (execute_androidFmRadioRxFullScan_finish FMRADIO_STATE_STARTED
                 0 [] [] (scanning_from all_methods FMRADIO_STATE_STARTED))))
  = [CallVoidMethod "notifyOnFullScan" "([I[IZ)V"
       [JIntArray []; JIntArray []; JBoolean false]].
Proof.
  split; [reflexivity |].
  apply (empty_full_scan_is_delivered
           (fun _ => {| env_ok := false; attach_ok := true;
                        method_found := true |})
           FMRADIO_STATE_STARTED [] []
           (scanning_from all_methods FMRADIO_STATE_STARTED));
    [intros n; split; reflexivity | reflexivity].
Defined.

Lemma rds_bundle_af_length_witness :
  0 < 2 /\
  2 < 25 /\
  exists l : list Z,
    bundle_get "AF"
      (rds_bundle 25
         {| pi := 1; tp := 0; pty := 10; ta := 0; ms := 1;
            num_afs := 2; af := 98300 :: 101100 :: repeat 0 23;
            psn := "RADIO"; rt := "text"; ct := "12:00"; ptyn := "news";
            tmc := [0; 0; 0]; taf := 0 |})
    = Some (JIntArray l) /\
    Z.of_nat (length l) = 2 /\
    l = firstn (length l) (98300 :: 101100 :: repeat 0 23).
Proof.
  split; [lia | split; [lia |]].
  apply (rds_bundle_af_length 25
           {| pi := 1; tp := 0; pty := 10; ta := 0; ms := 1;
              num_afs := 2; af := 98300 :: 101100 :: repeat 0 23;
              psn := "RADIO"; rt := "text"; ct := "12:00"; ptyn := "news";
              tmc := [0; 0; 0]; taf := 0 |});
    cbn; lia.
Defined.

(** ** Concrete runs of the final sections with their window *)

Lemma C9_aborted_flag_is_the_value_at_emission_witness :
  state (with_lastScanAborted true
           (scanning_from all_methods FMRADIO_STATE_STARTED))
    = FMRADIO_STATE_SCANNING /\
  0 <= 98300 /\
  last (trace (execute_androidFmRadioRxScan_finish_released
                 FMRADIO_STATE_STARTED 98300 7
                 (androidFmRadioRxScan (codes := negative_codes)
                    FMRADIO_SEEK_UP true)
                 (with_lastScanAborted true
                    (scanning_from all_methods FMRADIO_STATE_STARTED))))
       (Notify onError)
  = Notify (onScan 98300 7 false).
Proof.
  split; [reflexivity | split; [lia |]].
  apply (C9_aborted_flag_is_the_value_at_emission FMRADIO_STATE_STARTED
           98300 7 [] []
           (androidFmRadioRxScan (codes := negative_codes) FMRADIO_SEEK_UP true)
           (with_lastScanAborted true
              (scanning_from all_methods FMRADIO_STATE_STARTED))
           (scanning_from all_methods FMRADIO_STATE_STARTED)
           [Notify (onStateChanged FMRADIO_STATE_SCANNING FMRADIO_STATE_STARTED);
            PthreadCreate (worker_scan FMRADIO_SEEK_UP) true]);
    [reflexivity | lia | reflexivity].
Defined.

(** The flag found at re-lock and the flag reported can differ both ways.
    First run: a stop-scan request was served during the vendor call (flag
    set at re-lock) and a scan request is served during the state-change
    notification, which clears the flag: the result says [false].  Second
    run: the flag is clear at re-lock and a stop-scan request is served
    during the notification: the result says [true]. *)
Lemma flag_at_relock_is_not_always_reported :
  last (trace (execute_androidFmRadioRxScan_finish_released
                 FMRADIO_STATE_STARTED 98300 7
                 (androidFmRadioRxScan (codes := negative_codes)
                    FMRADIO_SEEK_UP true)
                 (with_lastScanAborted true
                    (scanning_from all_methods FMRADIO_STATE_STARTED))))
       (Notify onError)
  = Notify (onScan 98300 7 false) /\
  last (trace (execute_androidFmRadioRxScan_finish_released
                 FMRADIO_STATE_STARTED 98300 7 androidFmRadioStopScan
                 (scanning_from all_methods FMRADIO_STATE_STARTED)))
       (Notify onError)
  = Notify (onScan 98300 7 true).
Proof.
  split; reflexivity.
Qed.

(** ** The null-pointer case, whatever the status codes *)

(** Whatever values the header gives the status codes, an operation whose
    vendor pointer is null surfaces InvalidState, IoError or nothing: the
    closing block has no other outcome. *)
Lemma null_pointer_outcomes {codes : fmradio_status_codes}
    (op : gated_operation) (vendor_ret : Z) (pthread_create_ok : bool)
    (s : FmSession_t) :
  table_cell IsValidRxEventForState (gated_event op) (state s) = true ->
  gated_pointer op (vendorMethods_p s) = false ->
  final (run_gated op vendor_ret pthread_create_ok s) = s /\
  (trace (run_gated op vendor_ret pthread_create_ok s) = [Throw InvalidState] \/
   trace (run_gated op vendor_ret pthread_create_ok s) = [Throw IoError] \/
   trace (run_gated op vendor_ret pthread_create_ok s) = []).
Proof.
  intros Hvalid Hnull.
  rewrite (null_pointer_run op vendor_ret pthread_create_ok s Hvalid Hnull).
  rewrite final_of_run, !trace_of_run.
  split; [reflexivity |].
  exact (proj2 (throw_for_run FMRADIO_UNSUPPORTED_OPERATION s)).
Qed.
